(** * Brahmaanu UI: the HTTP proxy layer of [app.py]

    A shallow embedding of the three functions of [app.py] that talk to the
    backend ([check_backend], [fetch_sample_questions], [call_api]) and the
    properties the specification states about them.

    Python values live in a store: lists and dicts are mutable objects with an
    identity, so a value is either an immediate ([None], a bool, an int, a
    str, a tuple) or a reference into the store.  Functions are computations
    in a state-and-exception monad over that store.  The network is an
    arbitrary function from the request (and everything that happened before
    it) to either a response or a raised exception; the [requests] library
    is modelled as far as [app.py] uses it ([get], [post],
    [raise_for_status], [ok], [json], the exception classes).

    Outside the model: the diagnostic [print] lines (they produce no value and
    touch no object), JSON numbers with a fractional part, and exceptions
    that do not derive from [Exception] (such as [KeyboardInterrupt]). *)

From Stdlib Require Import ZArith Ascii String List Lia.
From stdpp Require Import base option list strings pretty.

#[local] Set Warnings "-register-all".

Open Scope string_scope.
Open Scope list_scope.
Open Scope Z_scope.

(** ** Python values and the store *)

Abbreviation loc := nat (only parsing).

Inductive val : Type :=
| VNone
| VBool (b : bool)
| VInt (z : Z)
| VStr (s : string)
| VTuple (items : list val)
| VRef (l : loc).

(** A dict keeps its entries in insertion order, one entry per key. *)
Abbreviation entries := (list (string * val)) (only parsing).

Inductive obj : Type :=
| OList (items : list val)
| ODict (d : entries).

Abbreviation store := (list obj) (only parsing).

Fixpoint dict_lookup (k : string) (d : entries) : option val :=
  match d with
  | [] => None
  | (k', v) :: d' => if String.eqb k k' then Some v else dict_lookup k d'
  end.

(** [d[k] = v]: an existing key keeps its position, a new key goes last. *)
Fixpoint dict_set (k : string) (v : val) (d : entries) : entries :=
  match d with
  | [] => [(k, v)]
  | (k', v') :: d' =>
      if String.eqb k k' then (k', v) :: d' else (k', v') :: dict_set k v d'
  end.

(** The list a value denotes in a store, when it is a list object. *)
Definition list_of (h : store) (v : val) : option (list val) :=
  match v with
  | VRef l => match h !! l with Some (OList xs) => Some xs | _ => None end
  | _ => None
  end.

(** The entries a value denotes in a store, when it is a dict object. *)
Definition dict_of (h : store) (v : val) : option entries :=
  match v with
  | VRef l => match h !! l with Some (ODict d) => Some d | _ => None end
  | _ => None
  end.

(** Python's truth value, [bool(v)]. *)
Definition truthy (h : store) (v : val) : bool :=
  match v with
  | VNone => false
  | VBool b => b
  | VInt z => negb (Z.eqb z 0)
  | VStr s => negb (String.eqb s EmptyString)
  | VTuple xs => match xs with [] => false | _ => true end
  | VRef l =>
      match h !! l with
      | Some (OList []) => false
      | Some (ODict []) => false
      | _ => true
      end
  end.

(** [v == s] for a str literal [s]: only a str with the same text is equal. *)
Definition eq_str (v : val) (s : string) : bool :=
  match v with
  | VStr s' => String.eqb s' s
  | _ => false
  end.

(** ** JSON bodies *)

Inductive json : Type :=
| JNull
| JBool (b : bool)
| JInt (z : Z)
| JStr (s : string)
| JArr (items : list json)
| JObj (members : list (string * json)).

(** ** Exceptions

    One constructor per class that can be raised where [app.py] calls into
    [requests] or into a built-in.  [HTTPError] is only ever raised by
    [raise_for_status], which attaches the response; the exception carries
    that response's status code. *)

Inductive exn : Type :=
| RequestException
| InvalidJSONError
| JSONDecodeError
| HTTPError (status_code : Z)
| ConnectionError
| ProxyError
| SSLError
| Timeout
| ConnectTimeout
| ReadTimeout
| URLRequired
| TooManyRedirects
| MissingSchema
| InvalidSchema
| InvalidURL
| InvalidHeader
| InvalidProxyURL
| ChunkedEncodingError
| ContentDecodingError
| StreamConsumedError
| RetryError
| UnrewindableBodyError
| AttributeError
| TypeError
| ValueError
| OtherException (class_name : string).

(** The classes named in the [except] clauses of [app.py]. *)
Inductive except_clause : Type :=
| except_ConnectionError
| except_Timeout
| except_HTTPError
| except_Exception.

(** [isinstance(e, C)], following the class hierarchy of
    [requests.exceptions]: [ProxyError], [SSLError] and [ConnectTimeout]
    derive from [ConnectionError]; [ConnectTimeout] and [ReadTimeout] derive
    from [Timeout]. *)
Definition isinstance (e : exn) (c : except_clause) : bool :=
  match c with
  | except_ConnectionError =>
      match e with
      | ConnectionError | ProxyError | SSLError | ConnectTimeout => true
      | _ => false
      end
  | except_Timeout =>
      match e with
      | Timeout | ConnectTimeout | ReadTimeout => true
      | _ => false
      end
  | except_HTTPError =>
      match e with
      | HTTPError _ => true
      | _ => false
      end
  | except_Exception => true
  end.

(** ** The network *)

Inductive method : Type := GET | POST.

Record request : Type := Request {
  rq_method : method;
  rq_url : string;
  rq_json : option val;
  rq_timeout : Z;
  rq_allow_redirects : bool
}.

(** A response as far as [app.py] looks at it: the status code, and the body
    as JSON when it parses as JSON. *)
Record response : Type := Response {
  status_code : Z;
  body : option json
}.

Inductive reply : Type :=
| Replied (r : response)
| Failed (e : exn).

(** ** The world and the monad *)

Record world : Type := World {
  heap : store;
  wire : list request
}.

Inductive outcome (A : Type) : Type :=
| Done (a : A)
| Raised (e : exn).
Arguments Done {A} a.
Arguments Raised {A} e.

Definition M (A : Type) : Type := world -> outcome A * world.

Definition ret {A : Type} (a : A) : M A := fun w => (Done a, w).

Definition raise {A : Type} (e : exn) : M A := fun w => (Raised e, w).

Definition bind {A B : Type} (m : M A) (k : A -> M B) : M B :=
  fun w =>
    match m w with
    | (Done a, w') => k a w'
    | (Raised e, w') => (Raised e, w')
    end.

Notation "'let!' x ':=' m 'in' k" := (bind m (fun x => k))
  (at level 10, x name, m at level 100, k at level 200).
Notation "m ';;;' k" := (bind m (fun _ => k))
  (at level 100, k at level 200, right associativity).

(** [try: body except C1: h1 except C2: h2 ...]: the first clause whose class
    the exception is an instance of handles it; with no such clause the
    exception propagates.  An exception raised inside a handler propagates as
    well. *)
Fixpoint dispatch {A : Type} (hs : list (except_clause * (exn -> M A)))
    (e : exn) : M A :=
  match hs with
  | [] => raise e
  | (c, h) :: hs' => if isinstance e c then h e else dispatch hs' e
  end.

Definition try_except {A : Type} (body : M A)
    (hs : list (except_clause * (exn -> M A))) : M A :=
  fun w =>
    match body w with
    | (Done a, w') => (Done a, w')
    | (Raised e, w') => dispatch hs e w'
    end.

(** ** Built-ins *)

(** Allocation of a new object; its reference is the next free slot. *)
Definition alloc (o : obj) : M val :=
  fun w => (Done (VRef (length (heap w))),
            {| heap := heap w ++ [o]; wire := wire w |}).

(** [a or b]: [b] is evaluated only when [a] is falsy. *)
Definition py_or (a : val) (b : M val) : M val :=
  fun w => if truthy (heap w) a then (Done a, w) else b w.

(** A continuation byte of UTF-8: [10xxxxxx]. *)
Definition is_continuation (c : ascii) : bool :=
  match c with
  | Ascii _ _ _ _ _ _ false true => true
  | _ => false
  end.

(** The characters of a str whose text is UTF-8: each byte that is not a
    continuation byte starts a character and takes the continuation bytes
    after it. *)
Fixpoint code_points (s : string) : list string :=
  match s with
  | EmptyString => []
  | String c s' =>
      match code_points s' with
      | String c' p :: ps =>
          if is_continuation c'
          then String c (String c' p) :: ps
          else String c EmptyString :: String c' p :: ps
      | ps => String c EmptyString :: ps
      end
  end.

(** The items of a str when it is iterated: its characters, one str each. *)
Definition chars (s : string) : list val :=
  map VStr (code_points s).

(** [list(v)]: a new list with the items of an iterable, [TypeError] on a
    value that is not iterable. *)
Definition py_list (v : val) : M val :=
  fun w =>
    match v with
    | VTuple xs => alloc (OList xs) w
    | VStr s => alloc (OList (chars s)) w
    | VRef l =>
        match heap w !! l with
        | Some (OList xs) => alloc (OList xs) w
        | Some (ODict d) => alloc (OList (map (fun kv => VStr (fst kv)) d)) w
        | None => (Raised TypeError, w)
        end
    | VNone | VBool _ | VInt _ => (Raised TypeError, w)
    end.

(** [v.append(x)]: in-place update of a list object. *)
Definition append (v x : val) : M unit :=
  fun w =>
    match v with
    | VRef l =>
        match heap w !! l with
        | Some (OList xs) =>
            (Done tt, {| heap := <[l := OList (xs ++ [x])]> (heap w);
                         wire := wire w |})
        | _ => (Raised AttributeError, w)
        end
    | _ => (Raised AttributeError, w)
    end.

(** [v.keys()], as far as it matters here: [AttributeError] unless [v] is a
    dict. *)
Definition keys (v : val) : M (list string) :=
  fun w =>
    match dict_of (heap w) v with
    | Some d => (Done (map fst d), w)
    | None => (Raised AttributeError, w)
    end.

(** [v.get(k, default)]. *)
Definition get (v : val) (k : string) (dflt : val) : M val :=
  fun w =>
    match dict_of (heap w) v with
    | Some d => (Done (default dflt (dict_lookup k d)), w)
    | None => (Raised AttributeError, w)
    end.

(** [isinstance(v, list)]. *)
Definition isinstance_list (h : store) (v : val) : bool :=
  match list_of h v with Some _ => true | None => false end.

(** [json.loads] on an already tokenised body: arrays become new list
    objects, objects become new dict objects (a repeated member name keeps
    its first position and its last value), the rest are immediates. *)
Section load.

Variable load : json -> store -> val * store.

Fixpoint load_items (js : list json) (h : store) : list val * store :=
  match js with
  | [] => ([], h)
  | j :: js' =>
      let '(v, h1) := load j h in
      let '(vs, h2) := load_items js' h1 in
      (v :: vs, h2)
  end.

Fixpoint load_members (ms : list (string * json)) (d : entries) (h : store)
    : entries * store :=
  match ms with
  | [] => (d, h)
  | (k, j) :: ms' =>
      let '(v, h1) := load j h in
      load_members ms' (dict_set k v d) h1
  end.

End load.

Fixpoint loads (j : json) (h : store) : val * store :=
  match j with
  | JNull => (VNone, h)
  | JBool b => (VBool b, h)
  | JInt z => (VInt z, h)
  | JStr s => (VStr s, h)
  | JArr js =>
      let '(vs, h') := load_items loads js h in
      (VRef (length h'), h' ++ [OList vs])
  | JObj ms =>
      let '(d, h') := load_members loads ms [] h in
      (VRef (length h'), h' ++ [ODict d])
  end.

(** ** The part of [requests] that [app.py] uses *)

Module requests.

(** [raise_for_status] raises for the codes 400 to 599 and for no other. *)
Definition is_error_status (code : Z) : bool :=
  (400 <=? code) && (code <? 600).

Definition raise_for_status (r : response) : M unit :=
  if is_error_status (status_code r)
  then raise (HTTPError (status_code r))
  else ret tt.

(** The [ok] property: [raise_for_status] with its [HTTPError] caught. *)
Definition ok (r : response) : M bool :=
  try_except (raise_for_status r ;;; ret true)
             [(except_HTTPError, fun _ => ret false)].

(** [r.json()]: decodes the body into new objects, or raises when the body
    is not JSON. *)
Definition json (r : response) : M val :=
  fun w =>
    match body r with
    | Some j =>
        let '(v, h') := loads j (heap w) in
        (Done v, {| heap := h'; wire := wire w |})
    | None => (Raised JSONDecodeError, w)
    end.

Section Net.

Variable net : world -> request -> reply.

(** One exchange with the network: the request goes on the wire, and either
    a response comes back or an exception is raised. *)
Definition send (rq : request) : M response :=
  fun w =>
    let w' := {| heap := heap w; wire := wire w ++ [rq] |} in
    match net w rq with
    | Replied r => (Done r, w')
    | Failed e => (Raised e, w')
    end.

(** [requests.get(url, timeout=t)]; redirects are followed by default. *)
Definition get (url : string) (timeout : Z) : M response :=
  send (Request GET url None timeout true).

(** [requests.post(url, json=payload, timeout=t, allow_redirects=a)]. *)
Definition post (url : string) (payload : val) (timeout : Z)
    (allow_redirects : bool) : M response :=
  send (Request POST url (Some payload) timeout allow_redirects).

End Net.

End requests.

(** ** [app.py] *)

Section App.

Variable BACKEND_URL : string.
Variable net : world -> request -> reply.

(** A [return] inside a [try] block is modelled by an optional early result:
    [Some v] when the block returned [v], [None] when control falls through
    to the statement after the [try]. *)

Definition check_backend : M val :=
  let! early :=
    try_except
      (let! r := requests.get net (BACKEND_URL +:+ "/health") 10 in
       requests.raise_for_status r ;;;
       let! r_ok := requests.ok r in
       if r_ok : bool then
         let! data := requests.json r in
         let! status := get data "status" VNone in
         if eq_str status "ok"
         then ret (Some (VStr "backend=READY"))
         else ret None
       else ret None)
      [(except_Exception, fun _ => ret None)] in
  match early with
  | Some v => ret v
  | None => ret (VStr "backend=DOWN")
  end.

Definition fallback_questions : list string :=
  [ "Where is the observatory located?";
    "Describe the governance settings for observing cycle length, cycle start date, cycle end date, and director’s discretionary time per cycle?";
    "Outline the key policies for observing modes, observing queue categories, and remote observation support?";
    "Summarize the discovery details for Dhruva Exoplanet and Aditi Pulsar?";
    "Give the deepimager exposure time range?";
    "Summarize the key calibration settings for flat field frames per filter per night, flat field illumination source, viscam twilight flat window, and flat field exposure level?" ].

Definition fetch_sample_questions : M val :=
  let! early :=
    try_except
      (let! resp := requests.get net (BACKEND_URL +:+ "/sample_questions") 10 in
       requests.raise_for_status resp ;;;
       let! data := requests.json resp in
       fun w =>
         if isinstance_list (heap w) data
         then (Done (Some data), w)
         else (Done None, w))
      [(except_Exception, fun _ => ret None)] in
  match early with
  | Some v => ret v
  | None => alloc (OList (map VStr fallback_questions))
  end.

(** The dict literal bound to [payload] at the head of [call_api]. *)
Definition payload (user_msg chat_history mode use_history state : val)
    : M val :=
  let! h := py_or chat_history (alloc (OList [])) in
  let! s := py_or state (alloc (ODict [])) in
  alloc (ODict [ ("user_msg", user_msg);
                 ("chat_history", h);
                 ("mode", mode);
                 ("use_history", use_history);
                 ("state", s) ]).

(** The body shared by the four handlers of [call_api], which differ in
    [err_msg] only. *)
Definition on_failure (user_msg chat_history state : val) (err_msg : string)
    : M (val * val * val * val) :=
  let! new_hist := py_list chat_history in
  append new_hist (VTuple [user_msg; VStr err_msg]) ;;;
  let! s := py_or state (alloc (ODict [])) in
  ret (user_msg, new_hist, s, VStr err_msg).

(** The [try] block of [call_api]. *)
Definition call_api_try (user_msg chat_history state payload : val)
    : M (val * val * val * val) :=
  let url := BACKEND_URL +:+ "/chat" in
  let! resp := requests.post net url payload 60 false in
  requests.raise_for_status resp ;;;
  let! data := requests.json resp in
  keys data ;;;
  let! h := get data "chat_history" chat_history in
  let! s := get data "state" state in
  let! status := get data "status" (VStr EmptyString) in
  ret (user_msg, h, s, status).

(** The [except] clauses of [call_api], in the order they are written. *)
Definition call_api_except (user_msg chat_history state : val)
    : list (except_clause * (exn -> M (val * val * val * val))) :=
  [ (except_ConnectionError, fun _ =>
       on_failure user_msg chat_history state
         "Backend not reachable (connection refused). Please retry when the backend server is running...");
    (except_Timeout, fun _ =>
       on_failure user_msg chat_history state
         "Backend took too long. Please try again later.");
    (except_HTTPError, fun e =>
       match e with
       | HTTPError code =>
           on_failure user_msg chat_history state
             ("Backend returned HTTP Error : " +:+ pretty code +:+ ".")
       | _ => raise AttributeError
       end);
    (except_Exception, fun _ =>
       on_failure user_msg chat_history state "Unknown client error.") ].

Definition call_api (user_msg chat_history mode use_history state : val)
    : M (val * val * val * val) :=
  let! payload := payload user_msg chat_history mode use_history state in
  try_except
    (call_api_try user_msg chat_history state payload)
    (call_api_except user_msg chat_history state).

(** The request [call_api] posts for a payload object [p]. *)
Definition chat_request (p : val) : request :=
  Request POST (BACKEND_URL +:+ "/chat") (Some p) 60 false.

(** The network's reply to the POST of [call_api], asked in the world in
    which the payload has just been built. *)
Definition chat_reply (user_msg chat_history mode use_history state : val)
    (w : world) : reply :=
  match payload user_msg chat_history mode use_history state w with
  | (Done p, w1) => net w1 (chat_request p)
  | (Raised e, _) => Failed e
  end.

(** The network's reply to the GET of [check_backend]. *)
Definition health_reply (w : world) : reply :=
  net w (Request GET (BACKEND_URL +:+ "/health") None 10 true).

(** The network's reply to the GET of [fetch_sample_questions]. *)
Definition questions_reply (w : world) : reply :=
  net w (Request GET (BACKEND_URL +:+ "/sample_questions") None 10 true).

End App.

(** ** Notions used to state the properties *)

(** The member named [k] of a JSON object as [json.loads] sees it: the last
    one with that name. *)
Fixpoint member (k : string) (ms : list (string * json)) : option json :=
  match ms with
  | [] => None
  | (k', j) :: ms' =>
      match member k ms' with
      | Some j' => Some j'
      | None => if String.eqb k k' then Some j else None
      end
  end.

(** The failure kind of an exception in [call_api]: the first of its four
    [except] clauses, in the order they are written, that the exception is
    an instance of. *)
Definition classify (e : exn) : except_clause :=
  if isinstance e except_ConnectionError then except_ConnectionError
  else if isinstance e except_Timeout then except_Timeout
  else if isinstance e except_HTTPError then except_HTTPError
  else except_Exception.

(** How the [try] block of [call_api] fails, given the network's reply to
    the POST: the exception [requests.post] raised; or the [HTTPError] of
    [raise_for_status] on a 4xx or 5xx status; or the error of decoding a body
    that is not JSON; or the [AttributeError] of [data.keys()] on a JSON body
    that is not an object.  [None] when the block runs to its [return]. *)
Definition failure_of (rep : reply) : option exn :=
  match rep with
  | Failed e => Some e
  | Replied r =>
      if requests.is_error_status (status_code r)
      then Some (HTTPError (status_code r))
      else match body r with
           | None => Some JSONDecodeError
           | Some (JObj _) => None
           | Some _ => Some AttributeError
           end
  end.


(** The health probe got a ready answer: a response came back, its status
    is not an error status, and its body is a JSON object whose [status]
    member is the string [ok]. *)
Definition answers_ok (rep : reply) : Prop :=
  exists r ms,
    rep = Replied r
    /\ requests.is_error_status (status_code r) = false
    /\ body r = Some (JObj ms)
    /\ member "status" ms = Some (JStr "ok").

(** The sample-question probe got a list: a response came back, its status
    is not an error status, and its body is the JSON array [js]. *)
Definition answers_list (rep : reply) (js : list json) : Prop :=
  exists r,
    rep = Replied r
    /\ requests.is_error_status (status_code r) = false
    /\ body r = Some (JArr js).

(** Induction on JSON values that reaches inside arrays and objects. *)
Section json_induction.

Variable P : json -> Prop.
Hypothesis HNull : P JNull.
Hypothesis HBool : forall b, P (JBool b).
Hypothesis HInt : forall z, P (JInt z).
Hypothesis HStr : forall s, P (JStr s).
Hypothesis HArr : forall js, Forall P js -> P (JArr js).
Hypothesis HObj : forall ms, Forall (fun m => P (snd m)) ms -> P (JObj ms).

Fixpoint json_nested_ind (j : json) : P j :=
  match j with
  | JNull => HNull
  | JBool b => HBool b
  | JInt z => HInt z
  | JStr s => HStr s
  | JArr js =>
      HArr js
        ((fix all (js : list json) : Forall P js :=
            match js with
            | [] => List.Forall_nil P
            | j :: js' =>
                @List.Forall_cons _ P j js' (json_nested_ind j) (all js')
            end) js)
  | JObj ms =>
      HObj ms
        ((fix all (ms : list (string * json))
            : Forall (fun m => P (snd m)) ms :=
            match ms with
            | [] => List.Forall_nil _
            | m :: ms' =>
                @List.Forall_cons _ _ m ms' (json_nested_ind (snd m)) (all ms')
            end) ms)
  end.

End json_induction.

(** ** Sample inputs *)

Definition sample_url : string := "http://localhost:7861".

(** A store with an empty transcript at 0, the initial session state of the
    UI at 1 (its [memory] list at 2) and a one-turn transcript at 3. *)
Definition sample_world : world :=
  {| heap := [ OList [];
               ODict [("session_id", VStr EmptyString); ("memory", VRef 2)];
               OList [];
               OList [VTuple [VStr "Hello"; VStr "Hi, how can I help?"]] ];
     wire := [] |}.

Definition net_fails (e : exn) : world -> request -> reply :=
  fun _ _ => Failed e.

Definition net_replies (code : Z) (b : option json) : world -> request -> reply :=
  fun _ _ => Replied {| status_code := code; body := b |}.

(** ** Configuration and presentation glue of [app.py] *)

(** The process environment, and [os.getenv(key, default)]. *)
Abbreviation environ := (string -> option string) (only parsing).

Definition getenv (env : environ) (key dflt : string) : string :=
  default dflt (env key).

(** [s.rstrip(c)] for a one-character [c]: [s] without its trailing run of
    [c]. *)
Fixpoint rstrip (c : ascii) (s : string) : string :=
  match s with
  | EmptyString => EmptyString
  | String a s' =>
      match rstrip c s' with
      | EmptyString =>
          if Ascii.eqb a c then EmptyString else String a EmptyString
      | r => String a r
      end
  end.

(** The module-level [BACKEND_URL], as it is resolved from the
    environment. *)
Definition resolve_BACKEND_URL (env : environ) : string :=
  rstrip "/"%char (getenv env "BACKEND_URL" "http://localhost:7861").

(** [s.lower()] on the letters A to Z.  The other characters are left as
    they are; no character outside A to Z is turned into one of the letters
    of [true] by Python's [lower], so the comparison below is decided by
    these letters alone. *)
Definition lower_ascii (c : ascii) : ascii :=
  let n := nat_of_ascii c in
  if ((65 <=? n) && (n <=? 90))%nat then ascii_of_nat (n + 32) else c.

Fixpoint lower (s : string) : string :=
  match s with
  | EmptyString => EmptyString
  | String c s' => String (lower_ascii c) (lower s')
  end.

(** The [share] flag computed under [__main__]. *)
Definition share (env : environ) : bool :=
  String.eqb (lower (getenv env "GRADIO_PUBLIC_SHARE" "True")) "true".

(** The handler [_pick_sample] of the sample-question dropdown. *)
Definition _pick_sample (q : val) : M (val * val) :=
  let! prompt := py_or q (ret (VStr EmptyString)) in
  ret (prompt, VNone).

(** The submit callback [_submit] of [build_ui]. *)
Definition _submit (BACKEND_URL : string) (net : world -> request -> reply)
    (user_msg chat_hist mode use_h st : val) : M (val * val * val * val) :=
  call_api BACKEND_URL net user_msg chat_hist mode use_h st.

(** ** Further notions used to state properties *)

(** A string of [n] slashes. *)
Fixpoint slashes (n : nat) : string :=
  match n with
  | O => EmptyString
  | S n' => String "/"%char (slashes n')
  end.

(** Whether a string ends with the character [c]. *)
Fixpoint ends_with (c : ascii) (s : string) : bool :=
  match s with
  | EmptyString => false
  | String a EmptyString => Ascii.eqb a c
  | String _ s' => ends_with c s'
  end.

(** A value that is no dangling reference: every reference in a running
    program points to an object. *)
Definition valid (h : store) (v : val) : Prop :=
  match v with
  | VRef l => (l < length h)%nat
  | _ => True
  end.

(** The Python value of a JSON value that is not an array or object. *)
Definition immediate (j : json) : option val :=
  match j with
  | JNull => Some VNone
  | JBool b => Some (VBool b)
  | JInt z => Some (VInt z)
  | JStr s => Some (VStr s)
  | JArr _ | JObj _ => None
  end.

(** The values [list(...)] rejects: [None], bools and ints. *)
Definition not_iterable (v : val) : Prop :=
  match v with
  | VNone | VBool _ | VInt _ => True
  | _ => False
  end.

(** ** The specification's wording *)

(** A status that indicates success as the specification words it: any
    status that is not 2xx means not ready. *)
Definition spec_success_status (code : Z) : bool :=
  (200 <=? code) && (code <? 300).

(** [v'] (in store [h']) equals [v] (in store [h]): it is the same value, or
    both are lists with the same items, or both are dicts with the same
    entries.  For [None] this is Python's [==]: only [None] equals [None]. *)
Definition same_value (h : store) (v : val) (h' : store) (v' : val) : Prop :=
  v' = v
  \/ (exists xs, list_of h v = Some xs /\ list_of h' v' = Some xs)
  \/ (exists d, dict_of h v = Some d /\ dict_of h' v' = Some d).

(** * Properties *)

(** ** Dicts *)

Lemma dict_lookup_set_eq k v d : dict_lookup k (dict_set k v d) = Some v.
Proof.
  induction d as [|[k' v'] d IH]; simpl.
  - now rewrite String.eqb_refl.
  - destruct (String.eqb k k') eqn:E; simpl; rewrite E; auto.
Qed.

Lemma dict_lookup_set_ne k k' v d :
  String.eqb k k' = false ->
  dict_lookup k (dict_set k' v d) = dict_lookup k d.
Proof.
  intros Hne. induction d as [|[k'' v''] d IH]; simpl.
  - now rewrite Hne.
  - destruct (String.eqb k' k'') eqn:E; simpl.
    + apply String.eqb_eq in E. subst k''. now rewrite Hne.
    + destruct (String.eqb k k''); auto.
Qed.

(** ** Decoding JSON *)

(** Decoding only allocates: the store it starts from is a prefix of the
    store it ends with. *)
Lemma loads_prefix j : forall h, h `prefix_of` (loads j h).2.
Proof.
  induction j as [| | | |js IH|ms IH] using json_nested_ind; intros h;
    try reflexivity.
  - simpl. destruct (load_items loads js h) as [vs h'] eqn:E. simpl.
    assert (Hp : h `prefix_of` h').
    { clear -IH E. revert h vs h' E.
      induction IH as [|j js Hj _ IHjs]; intros h vs h' E; simpl in E.
      - now inversion E.
      - destruct (loads j h) as [v h1] eqn:E1.
        destruct (load_items loads js h1) as [vs2 h2] eqn:E2.
        inversion E; subst. etrans; [|eapply IHjs; eauto].
        specialize (Hj h). now rewrite E1 in Hj. }
    etrans; [exact Hp|]. now apply prefix_app_r.
  - simpl. destruct (load_members loads ms [] h) as [d h'] eqn:E. simpl.
    assert (Hp : h `prefix_of` h').
    { clear -IH E. generalize dependent (@nil (string * val)). revert h.
      induction IH as [|[k j] ms Hj _ IHms]; intros h d0 E; simpl in E.
      - now inversion E.
      - destruct (loads j h) as [v h1] eqn:E1.
        etrans; [|eapply IHms; eauto].
        specialize (Hj h). simpl in Hj. now rewrite E1 in Hj. }
    etrans; [exact Hp|]. now apply prefix_app_r.
Qed.

Lemma lookup_snoc_new (h : store) (o : obj) : (h ++ [o]) !! length h = Some o.
Proof. rewrite lookup_app_r by lia. now rewrite Nat.sub_diag. Qed.

(** A decoded body is a dict exactly when the body is a JSON object. *)
Lemma loads_dict_of j h :
  dict_of (loads j h).2 (loads j h).1 =
  match j with
  | JObj ms => Some (load_members loads ms [] h).1
  | _ => None
  end.
Proof.
  destruct j as [| | | |js|ms]; try reflexivity; simpl.
  - destruct (load_items loads js h) as [vs h']. simpl.
    now rewrite lookup_snoc_new.
  - destruct (load_members loads ms [] h) as [d h']. simpl.
    now rewrite lookup_snoc_new.
Qed.

(** A decoded body is a list exactly when the body is a JSON array. *)
Lemma loads_list_of j h :
  list_of (loads j h).2 (loads j h).1 =
  match j with
  | JArr js => Some (load_items loads js h).1
  | _ => None
  end.
Proof.
  destruct j as [| | | |js|ms]; try reflexivity; simpl.
  - destruct (load_items loads js h) as [vs h']. simpl.
    now rewrite lookup_snoc_new.
  - destruct (load_members loads ms [] h) as [d h']. simpl.
    now rewrite lookup_snoc_new.
Qed.

Lemma load_items_length load js :
  forall h, length (load_items load js h).1 = length js.
Proof.
  induction js as [|j js IH]; intros h; simpl; [reflexivity|].
  destruct (load j h) as [v h1].
  specialize (IH h1). destruct (load_items load js h1) as [vs h2].
  simpl in *. now rewrite IH.
Qed.

(** Only a JSON string decodes to a str. *)
Lemma loads_eq_str j h s :
  eq_str (loads j h).1 s =
  match j with JStr s' => String.eqb s' s | _ => false end.
Proof.
  destruct j as [| | | |js|ms]; try reflexivity; simpl.
  - now destruct (load_items loads js h).
  - now destruct (load_members loads ms [] h).
Qed.

(** The decoded dict binds [k] to the decoding of the last member named [k],
    and leaves [k] as it was when there is no such member. *)
Lemma load_members_lookup k ms :
  forall d h,
    match member k ms with
    | Some j =>
        exists hj, dict_lookup k (load_members loads ms d h).1
                   = Some (loads j hj).1
    | None =>
        dict_lookup k (load_members loads ms d h).1 = dict_lookup k d
    end.
Proof.
  induction ms as [|[k' j] ms IH]; intros d h; simpl; [reflexivity|].
  destruct (loads j h) as [v h1] eqn:E.
  specialize (IH (dict_set k' v d) h1).
  destruct (member k ms) as [j'|]; [exact IH|].
  destruct (String.eqb k k') eqn:Ek.
  - apply String.eqb_eq in Ek. subst k'. exists h.
    now rewrite IH, dict_lookup_set_eq, E.
  - now rewrite IH, dict_lookup_set_ne.
Qed.

Lemma load_members_lookup_None k ms h :
  member k ms = None ->
  dict_lookup k (load_members loads ms [] h).1 = None.
Proof.
  intros Hm. pose proof (load_members_lookup k ms [] h) as H.
  now rewrite Hm in H.
Qed.

(** ** Truth values of lists and dicts *)

Lemma truthy_list h v xs :
  list_of h v = Some xs ->
  truthy h v = match xs with [] => false | _ => true end.
Proof.
  destruct v; try discriminate; simpl.
  destruct (h !! l) as [[ys|d]|]; try discriminate.
  intros [= ->]. now destruct xs.
Qed.

Lemma truthy_dict h v d :
  dict_of h v = Some d ->
  truthy h v = match d with [] => false | _ => true end.
Proof.
  destruct v; try discriminate; simpl.
  destruct (h !! l) as [[ys|d']|]; try discriminate.
  intros [= ->]. now destruct d.
Qed.

(** ** Objects survive allocation *)

Lemma list_of_prefix h h' v xs :
  h `prefix_of` h' -> list_of h v = Some xs -> list_of h' v = Some xs.
Proof.
  intros Hp. destruct v; try discriminate; simpl.
  destruct (h !! l) as [o|] eqn:E; [|discriminate].
  now rewrite (prefix_lookup_Some _ _ _ _ E Hp).
Qed.

Lemma dict_of_prefix h h' v d :
  h `prefix_of` h' -> dict_of h v = Some d -> dict_of h' v = Some d.
Proof.
  intros Hp. destruct v; try discriminate; simpl.
  destruct (h !! l) as [o|] eqn:E; [|discriminate].
  now rewrite (prefix_lookup_Some _ _ _ _ E Hp).
Qed.

Lemma list_of_alloc (h : store) xs :
  list_of (h ++ [OList xs]) (VRef (length h)) = Some xs.
Proof. simpl. now rewrite lookup_snoc_new. Qed.

Lemma dict_of_alloc (h : store) d :
  dict_of (h ++ [ODict d]) (VRef (length h)) = Some d.
Proof. simpl. now rewrite lookup_snoc_new. Qed.

(** Closes [h `prefix_of` ((h ++ a) ++ b) ++ ...]. *)
Ltac grows := solve [ reflexivity | apply prefix_app_r; grows ].

(** A fresh object, seen through later allocations. *)
Ltac fresh_object :=
  first [ eapply list_of_prefix; [|apply list_of_alloc]; grows
        | eapply dict_of_prefix; [|apply dict_of_alloc]; grows ].

(** ** The pieces of [call_api] *)

Section Pieces.

Variable BACKEND_URL : string.
Variable net : world -> request -> reply.

(** Building the payload allocates the payload dict (and an empty list or
    dict for a falsy transcript or state) and does nothing else. *)
Lemma payload_spec user_msg chat_history mode use_history state w :
  exists p h s w1,
    payload user_msg chat_history mode use_history state w = (Done p, w1)
    /\ wire w1 = wire w
    /\ heap w `prefix_of` heap w1
    /\ dict_of (heap w1) p =
         Some [ ("user_msg", user_msg); ("chat_history", h); ("mode", mode);
                ("use_history", use_history); ("state", s) ]
    /\ (forall xs, list_of (heap w) chat_history = Some xs ->
                   list_of (heap w1) h = Some xs)
    /\ (forall d, dict_of (heap w) state = Some d ->
                  dict_of (heap w1) s = Some d).
Proof.
  unfold payload, bind, py_or.
  destruct (truthy (heap w) chat_history) eqn:Eh.
  - destruct (truthy (heap w) state) eqn:Es.
    + eexists _, chat_history, state, _. split; [reflexivity|].
      cbn [heap wire]. repeat split; [grows|apply dict_of_alloc|..].
      * intros xs. apply list_of_prefix. grows.
      * intros d. apply dict_of_prefix. grows.
    + eexists _, chat_history, _, _. split; [reflexivity|].
      cbn [heap wire]. repeat split; [grows|apply dict_of_alloc|..].
      * intros xs. apply list_of_prefix. grows.
      * intros d Hd. rewrite (truthy_dict _ _ _ Hd) in Es.
        destruct d; [|discriminate]. fresh_object.
  - cbn [alloc heap wire].
    destruct (truthy (heap w ++ [OList []]) state) eqn:Es.
    + eexists _, _, state, _. split; [reflexivity|].
      cbn [heap wire]. repeat split; [grows|apply dict_of_alloc|..].
      * intros xs Hx. rewrite (truthy_list _ _ _ Hx) in Eh.
        destruct xs; [|discriminate]. fresh_object.
      * intros d. apply dict_of_prefix. grows.
    + eexists _, _, _, _. split; [reflexivity|].
      cbn [heap wire]. repeat split; [grows|apply dict_of_alloc|..].
      * intros xs Hx. rewrite (truthy_list _ _ _ Hx) in Eh.
        destruct xs; [|discriminate]. fresh_object.
      * intros d Hd.
        assert (Hd' : dict_of (heap w ++ [OList []]) state = Some d)
          by (eapply dict_of_prefix; [|exact Hd]; grows).
        rewrite (truthy_dict _ _ _ Hd') in Es.
        destruct d; [|discriminate]. fresh_object.
Qed.

Lemma insert_snoc (h : store) (o o' : obj) :
  <[length h := o']> (h ++ [o]) = h ++ [o'].
Proof.
  rewrite insert_app_r_alt by lia. now rewrite Nat.sub_diag.
Qed.

(** A handler of [call_api] on a list-valued transcript: the copy is a new
    object, the turn is appended to the copy, and the state comes back as it
    is, or as a new empty dict when it is an empty dict. *)
Lemma on_failure_spec user_msg chat_history state err_msg w xs :
  list_of (heap w) chat_history = Some xs ->
  exists s w',
    on_failure user_msg chat_history state err_msg w
    = (Done (user_msg, VRef (length (heap w)), s, VStr err_msg), w')
    /\ wire w' = wire w
    /\ heap w `prefix_of` heap w'
    /\ list_of (heap w') (VRef (length (heap w)))
       = Some (xs ++ [VTuple [user_msg; VStr err_msg]])
    /\ (forall d, dict_of (heap w) state = Some d ->
                  dict_of (heap w') s = Some d /\ (d <> [] -> s = state)).
Proof.
  intros Hxs. unfold on_failure, bind, py_list.
  destruct chat_history as [| | | | |l]; try discriminate.
  simpl in Hxs. destruct (heap w !! l) as [[ys|d]|]; try discriminate.
  injection Hxs as ->. cbn [alloc append heap wire].
  rewrite lookup_snoc_new, insert_snoc.
  unfold py_or, ret. cbn [heap wire].
  set (h2 := heap w ++ [OList (xs ++ [VTuple [user_msg; VStr err_msg]])]).
  destruct (truthy h2 state) eqn:Es.
  - eexists state, _. split; [reflexivity|]. cbn [heap wire].
    split_and!; [reflexivity|subst h2; grows|apply list_of_alloc|].
    intros d Hd. split; [|reflexivity].
    eapply dict_of_prefix; [|exact Hd]. subst h2; grows.
  - eexists _, _. split; [reflexivity|]. cbn [alloc heap wire].
    split_and!; [reflexivity|subst h2; grows|subst h2; fresh_object|].
    intros d Hd.
    assert (Hd' : dict_of h2 state = Some d)
      by (eapply dict_of_prefix; [|exact Hd]; subst h2; grows).
    rewrite (truthy_dict _ _ _ Hd') in Es. destruct d; [|discriminate].
    split; [apply dict_of_alloc|congruence].
Qed.

(** On a transcript that is not iterable, such as [None], a handler raises
    [TypeError] itself. *)
Lemma on_failure_None user_msg state err_msg w :
  on_failure user_msg VNone state err_msg w = (Raised TypeError, w).
Proof. reflexivity. Qed.

(** The [try] block fails exactly as [failure_of] says, after the request
    has gone out, and allocates at most. *)
Lemma call_api_try_failure user_msg chat_history state p w e :
  failure_of (net w (chat_request BACKEND_URL p)) = Some e ->
  exists w',
    call_api_try BACKEND_URL net user_msg chat_history state p w
    = (Raised e, w')
    /\ heap w `prefix_of` heap w'
    /\ wire w' = wire w ++ [chat_request BACKEND_URL p].
Proof.
  unfold call_api_try, requests.post, requests.send, bind, chat_request.
  destruct (net w _) as [r|e0]; simpl.
  - unfold requests.raise_for_status.
    destruct (requests.is_error_status (status_code r)).
    + intros [= <-]. eexists. split; [reflexivity|]. now split.
    + unfold ret, requests.json. destruct (body r) as [j|]; cbn [heap wire].
      * pose proof (loads_prefix j (heap w)) as Hpre.
        pose proof (loads_dict_of j (heap w)) as Hd.
        destruct (loads j (heap w)) as [v h'].
        unfold keys. cbn [heap wire fst snd] in *. rewrite Hd.
        destruct j; try discriminate; intros [= <-];
          (eexists; split; [reflexivity|]; now split).
      * intros [= <-]. eexists. split; [reflexivity|]. now split.
  - intros [= <-]. eexists. split; [reflexivity|]. now split.
Qed.

(** Without a failure the [try] block returns the message as it came and,
    for each of the three other outputs, the value the decoded body gives it
    or else the fall-back. *)
Lemma call_api_try_success user_msg chat_history state p w :
  failure_of (net w (chat_request BACKEND_URL p)) = None ->
  exists r ms w',
    net w (chat_request BACKEND_URL p) = Replied r
    /\ requests.is_error_status (status_code r) = false
    /\ body r = Some (JObj ms)
    /\ (let d := (load_members loads ms [] (heap w)).1 in
        call_api_try BACKEND_URL net user_msg chat_history state p w
        = (Done (user_msg,
                 default chat_history (dict_lookup "chat_history" d),
                 default state (dict_lookup "state" d),
                 default (VStr EmptyString) (dict_lookup "status" d)), w'))
    /\ heap w `prefix_of` heap w'
    /\ wire w' = wire w ++ [chat_request BACKEND_URL p].
Proof.
  unfold call_api_try, requests.post, requests.send, bind, chat_request.
  destruct (net w _) as [r|e0]; simpl; [|discriminate].
  unfold requests.raise_for_status.
  destruct (requests.is_error_status (status_code r)) eqn:Est; [discriminate|].
  unfold ret, requests.json.
  destruct (body r) as [[| | | |js|ms]|] eqn:Eb; try discriminate.
  intros _. exists r, ms. cbn [heap wire].
  pose proof (loads_prefix (JObj ms) (heap w)) as Hpre.
  pose proof (loads_dict_of (JObj ms) (heap w)) as Hd.
  destruct (loads (JObj ms) (heap w)) as [v h'].
  unfold keys, get. cbn [heap wire fst snd] in *.
  repeat (rewrite Hd; cbn [heap wire]).
  eexists. split_and!; first [reflexivity | assumption].
Qed.

(** The clauses pick the message by the failure kind. *)
Lemma call_api_except_spec user_msg chat_history state e w :
  exists msg,
    dispatch (call_api_except user_msg chat_history state) e w
    = on_failure user_msg chat_history state msg w
    /\ (classify e = except_ConnectionError ->
        msg = "Backend not reachable (connection refused). Please retry when the backend server is running...")
    /\ (classify e = except_Timeout ->
        msg = "Backend took too long. Please try again later.")
    /\ (forall code, e = HTTPError code ->
        msg = "Backend returned HTTP Error : " +:+ pretty code +:+ ".")
    /\ (classify e = except_Exception -> msg = "Unknown client error.").
Proof.
  destruct e; (eexists; split; [reflexivity|]);
    split_and!; try discriminate; try reflexivity.
  now intros code [= ->].
Qed.

(** ** [call_api] as a whole *)

(** Every failure on a list-valued transcript ends in a handler, which
    returns.  The record of what it returns is shared by the properties of
    the failure paths below. *)
Lemma call_api_failure user_msg chat_history mode use_history state w xs e :
  list_of (heap w) chat_history = Some xs ->
  failure_of (chat_reply BACKEND_URL net user_msg chat_history mode
                use_history state w) = Some e ->
  exists msg l s w',
    call_api BACKEND_URL net user_msg chat_history mode use_history state w
    = (Done (user_msg, VRef l, s, VStr msg), w')
    /\ (classify e = except_ConnectionError ->
        msg = "Backend not reachable (connection refused). Please retry when the backend server is running...")
    /\ (classify e = except_Timeout ->
        msg = "Backend took too long. Please try again later.")
    /\ (forall code, e = HTTPError code ->
        msg = "Backend returned HTTP Error : " +:+ pretty code +:+ ".")
    /\ (classify e = except_Exception -> msg = "Unknown client error.")
    /\ (length (heap w) <= l)%nat
    /\ heap w `prefix_of` heap w'
    /\ list_of (heap w') (VRef l)
       = Some (xs ++ [VTuple [user_msg; VStr msg]])
    /\ (forall d, dict_of (heap w) state = Some d ->
                  dict_of (heap w') s = Some d /\ (d <> [] -> s = state)).
Proof.
  intros Hxs Hfail.
  destruct (payload_spec user_msg chat_history mode use_history state w)
    as (p & h & s0 & w1 & Hp & _ & Hpre1 & _).
  unfold chat_reply in Hfail. rewrite Hp in Hfail.
  destruct (call_api_try_failure user_msg chat_history state p w1 e Hfail)
    as (w2 & Htry & Hpre2 & _).
  assert (Hpre : heap w `prefix_of` heap w2) by (etrans; eassumption).
  destruct (call_api_except_spec user_msg chat_history state e w2)
    as (msg & Hdisp & Hc & Ht & Hh & Hu).
  destruct (on_failure_spec user_msg chat_history state msg w2 xs
              (list_of_prefix _ _ _ _ Hpre Hxs))
    as (s & w' & Hrun & _ & Hpre3 & Hlist & Hstate).
  exists msg, (length (heap w2)), s, w'.
  split.
  { unfold call_api, bind, try_except. rewrite Hp, Htry, Hdisp. exact Hrun. }
  split_and!; try assumption.
  - now apply prefix_length.
  - etrans; eassumption.
  - intros d Hd. apply Hstate. eapply dict_of_prefix; eassumption.
Qed.

(** A call without failure returns what the [try] block returns. *)
Lemma call_api_success user_msg chat_history mode use_history state w :
  failure_of (chat_reply BACKEND_URL net user_msg chat_history mode
                use_history state w) = None ->
  exists r ms d w',
    chat_reply BACKEND_URL net user_msg chat_history mode use_history state w
    = Replied r
    /\ requests.is_error_status (status_code r) = false
    /\ body r = Some (JObj ms)
    /\ (forall k, member k ms = None -> dict_lookup k d = None)
    /\ call_api BACKEND_URL net user_msg chat_history mode use_history
         state w
       = (Done (user_msg,
                default chat_history (dict_lookup "chat_history" d),
                default state (dict_lookup "state" d),
                default (VStr EmptyString) (dict_lookup "status" d)), w')
    /\ heap w `prefix_of` heap w'.
Proof.
  intros Hok.
  destruct (payload_spec user_msg chat_history mode use_history state w)
    as (p & h & s0 & w1 & Hp & _ & Hpre1 & _).
  unfold chat_reply in *. rewrite Hp in *.
  destruct (call_api_try_success user_msg chat_history state p w1 Hok)
    as (r & ms & w' & Hrep & Hst & Hb & Htry & Hpre2 & _).
  exists r, ms, (load_members loads ms [] (heap w1)).1, w'.
  split_and!; try assumption.
  - intros k. apply load_members_lookup_None.
  - unfold call_api, bind, try_except. rewrite Hp. cbv zeta in Htry.
    now rewrite Htry.
  - etrans; eassumption.
Qed.

(** Whatever the reply, exactly one request goes out: the POST of the
    payload. *)
Lemma call_api_wire user_msg chat_history mode use_history state w xs p w1 :
  list_of (heap w) chat_history = Some xs ->
  payload user_msg chat_history mode use_history state w = (Done p, w1) ->
  wire (call_api BACKEND_URL net user_msg chat_history mode use_history
          state w).2
  = wire w ++ [chat_request BACKEND_URL p].
Proof.
  intros Hxs Hp.
  destruct (payload_spec user_msg chat_history mode use_history state w)
    as (p' & h & s0 & w1' & Hp' & Hwire & Hpre1 & _).
  rewrite Hp in Hp'. injection Hp' as <- <-.
  unfold call_api, bind, try_except. rewrite Hp.
  destruct (failure_of (net w1 (chat_request BACKEND_URL p))) as [e|] eqn:Ef.
  - destruct (call_api_try_failure user_msg chat_history state p w1 e Ef)
      as (w2 & Htry & Hpre2 & Hw2).
    rewrite Htry.
    destruct (call_api_except_spec user_msg chat_history state e w2)
      as (msg & Hdisp & _).
    assert (Hpre : heap w `prefix_of` heap w2) by (etrans; eassumption).
    destruct (on_failure_spec user_msg chat_history state msg w2 xs
                (list_of_prefix _ _ _ _ Hpre Hxs))
      as (s & w' & Hrun & Hw' & _).
    rewrite Hdisp, Hrun. simpl. now rewrite Hw', Hw2, Hwire.
  - destruct (call_api_try_success user_msg chat_history state p w1 Ef)
      as (r & ms & w' & _ & _ & _ & Htry & _ & Hw').
    cbv zeta in Htry. rewrite Htry. simpl. now rewrite Hw', Hwire.
Qed.

End Pieces.

(** ** Truth values and the [or] defaults *)

Lemma truthy_prefix (h h' : store) v :
  valid h v -> h `prefix_of` h' -> truthy h' v = truthy h v.
Proof.
  intros Hv Hpre. destruct v as [| | | | |l]; try reflexivity. simpl in *.
  destruct (h !! l) as [o|] eqn:E.
  - now rewrite (prefix_lookup_Some _ _ _ _ E Hpre).
  - apply lookup_ge_None in E. lia.
Qed.

Lemma valid_prefix (h h' : store) v :
  valid h v -> h `prefix_of` h' -> valid h' v.
Proof.
  intros Hv Hpre. destruct v; try exact I. simpl in *.
  apply prefix_length in Hpre. lia.
Qed.

(** The state a handler returns: the input when it is truthy, a new empty
    dict when it is not. *)
Lemma on_failure_state user_msg chat_history state err_msg w xs :
  list_of (heap w) chat_history = Some xs ->
  valid (heap w) state ->
  exists h s status w',
    on_failure user_msg chat_history state err_msg w
    = (Done (user_msg, h, s, status), w')
    /\ heap w `prefix_of` heap w'
    /\ (truthy (heap w) state = true -> s = state)
    /\ (truthy (heap w) state = false ->
        exists l, s = VRef l /\ (length (heap w) <= l)%nat
                  /\ dict_of (heap w') s = Some []).
Proof.
  intros Hxs Hv. unfold on_failure, bind, py_list.
  destruct chat_history as [| | | | |l]; try discriminate.
  simpl in Hxs. destruct (heap w !! l) as [[ys|d]|]; try discriminate.
  injection Hxs as ->. cbn [alloc append heap wire].
  rewrite lookup_snoc_new, insert_snoc.
  unfold py_or, ret. cbn [heap wire].
  set (h2 := heap w ++ [OList (xs ++ [VTuple [user_msg; VStr err_msg]])]).
  assert (Hpre : heap w `prefix_of` h2) by (subst h2; grows).
  rewrite (truthy_prefix _ _ _ Hv Hpre).
  destruct (truthy (heap w) state) eqn:Es.
  - eexists _, state, _, _. split; [reflexivity|]. cbn [heap wire].
    split_and!; [exact Hpre|reflexivity|discriminate].
  - eexists _, _, _, _. split; [reflexivity|]. cbn [alloc heap wire].
    split_and!; [subst h2; grows|discriminate|].
    intros _. eexists. split; [reflexivity|].
    split; [now apply prefix_length|apply dict_of_alloc].
Qed.

(** A handler sends nothing. *)
Lemma on_failure_wire user_msg chat_history state err_msg w :
  wire (on_failure user_msg chat_history state err_msg w).2 = wire w.
Proof.
  assert (Hrest : forall xs w1,
    wire w1 = wire w ->
    wire (bind (alloc (OList xs)) (fun new_hist =>
            bind (append new_hist (VTuple [user_msg; VStr err_msg])) (fun _ =>
              bind (py_or state (alloc (ODict []))) (fun s =>
                ret (user_msg, new_hist, s, VStr err_msg)))) w1).2 = wire w).
  { intros xs w1 Hw. unfold bind. cbn [alloc append heap wire].
    rewrite lookup_snoc_new. unfold py_or, ret. cbn [heap wire].
    now destruct (truthy _ state). }
  unfold on_failure, bind at 1, py_list.
  destruct chat_history as [| | |t|xs|l]; try reflexivity.
  - now apply (Hrest (chars t)).
  - now apply (Hrest xs).
  - destruct (heap w !! l) as [[xs|d]|]; try reflexivity.
    + now apply (Hrest xs).
    + now apply (Hrest (map (fun kv => VStr kv.1) d)).
Qed.

Section OrDefaults.

Variable BACKEND_URL : string.
Variable net : world -> request -> reply.

(** The payload, read by truth value: a truthy transcript or state is sent
    as it is, a falsy one as a new empty list or dict. *)
Lemma payload_by_truth user_msg chat_history mode use_history state w :
  valid (heap w) chat_history ->
  valid (heap w) state ->
  exists p h s w1,
    payload user_msg chat_history mode use_history state w = (Done p, w1)
    /\ dict_of (heap w1) p =
         Some [ ("user_msg", user_msg); ("chat_history", h); ("mode", mode);
                ("use_history", use_history); ("state", s) ]
    /\ (truthy (heap w) chat_history = true -> h = chat_history)
    /\ (truthy (heap w) chat_history = false ->
        exists l, h = VRef l /\ (length (heap w) <= l)%nat
                  /\ list_of (heap w1) h = Some [])
    /\ (truthy (heap w) state = true -> s = state)
    /\ (truthy (heap w) state = false ->
        exists l, s = VRef l /\ (length (heap w) <= l)%nat
                  /\ dict_of (heap w1) s = Some []).
Proof.
  intros HT Hs. unfold payload, bind, py_or.
  destruct (truthy (heap w) chat_history) eqn:Eh.
  - destruct (truthy (heap w) state) eqn:Es.
    + eexists _, chat_history, state, _. split; [reflexivity|].
      cbn [heap wire]. split; [apply dict_of_alloc|]. split_and!; done.
    + eexists _, chat_history, _, _. split; [reflexivity|].
      cbn [alloc heap wire]. split; [apply dict_of_alloc|].
      split_and!; try done.
      intros _. eexists. split_and!; [reflexivity|lia|fresh_object].
  - cbn [alloc heap wire].
    rewrite (truthy_prefix (heap w) (heap w ++ [OList []]) state Hs)
      by now apply prefix_app_r.
    destruct (truthy (heap w) state) eqn:Es.
    + eexists _, _, state, _. split; [reflexivity|]. cbn [heap wire].
      split; [apply dict_of_alloc|]. split_and!; try done.
      intros _. eexists. split_and!; [reflexivity|lia|fresh_object].
    + eexists _, _, _, _. split; [reflexivity|]. cbn [alloc heap wire].
      split; [apply dict_of_alloc|]. split_and!; try done.
      * intros _. eexists. split_and!; [reflexivity|lia|fresh_object].
      * intros _. eexists. split_and!; [reflexivity| |fresh_object].
        rewrite length_app. simpl. lia.
Qed.

(** Whatever the inputs and the reply, exactly one request goes out. *)
Lemma call_api_wire_any user_msg chat_history mode use_history state w p w1 :
  payload user_msg chat_history mode use_history state w = (Done p, w1) ->
  wire (call_api BACKEND_URL net user_msg chat_history mode use_history
          state w).2
  = wire w ++ [chat_request BACKEND_URL p].
Proof.
  intros Hp.
  destruct (payload_spec user_msg chat_history mode use_history state w)
    as (p' & h & s0 & w1' & Hp' & Hwire & _).
  rewrite Hp in Hp'. injection Hp' as <- <-.
  unfold call_api, bind, try_except. rewrite Hp.
  destruct (failure_of (net w1 (chat_request BACKEND_URL p))) as [e|] eqn:Ef.
  - destruct (call_api_try_failure BACKEND_URL net user_msg chat_history
                state p w1 e Ef) as (w2 & Htry & _ & Hw2).
    rewrite Htry.
    destruct (call_api_except_spec user_msg chat_history state e w2)
      as (msg & Hdisp & _).
    now rewrite Hdisp, on_failure_wire, Hw2, Hwire.
  - destruct (call_api_try_success BACKEND_URL net user_msg chat_history
                state p w1 Ef)
      as (r & ms & w' & _ & _ & _ & Htry & _ & Hw').
    cbv zeta in Htry. rewrite Htry. simpl. now rewrite Hw', Hwire.
Qed.

(** The state a failed call returns, read by truth value. *)
Lemma call_api_failure_by_truth
    user_msg chat_history mode use_history state w xs e :
  list_of (heap w) chat_history = Some xs ->
  valid (heap w) state ->
  failure_of (chat_reply BACKEND_URL net user_msg chat_history mode
                use_history state w) = Some e ->
  exists h s status w',
    call_api BACKEND_URL net user_msg chat_history mode use_history state w
    = (Done (user_msg, h, s, status), w')
    /\ (truthy (heap w) state = true -> s = state)
    /\ (truthy (heap w) state = false ->
        exists l, s = VRef l /\ (length (heap w) <= l)%nat
                  /\ dict_of (heap w') s = Some []).
Proof.
  intros Hxs Hv Hfail.
  destruct (payload_spec user_msg chat_history mode use_history state w)
    as (p & h0 & s0 & w1 & Hp & _ & Hpre1 & _).
  unfold chat_reply in Hfail. rewrite Hp in Hfail.
  destruct (call_api_try_failure BACKEND_URL net user_msg chat_history state
              p w1 e Hfail) as (w2 & Htry & Hpre2 & _).
  assert (Hpre : heap w `prefix_of` heap w2) by (etrans; eassumption).
  destruct (call_api_except_spec user_msg chat_history state e w2)
    as (msg & Hdisp & _).
  destruct (on_failure_state user_msg chat_history state msg w2 xs
              (list_of_prefix _ _ _ _ Hpre Hxs) (valid_prefix _ _ _ Hv Hpre))
    as (h & s & status & w' & Hrun & _ & Hsame & Hnew).
  rewrite (truthy_prefix _ _ _ Hv Hpre) in Hsame, Hnew.
  exists h, s, status, w'. split_and!; [|exact Hsame|].
  - unfold call_api, bind, try_except. now rewrite Hp, Htry, Hdisp.
  - intros Hf. destruct (Hnew Hf) as (l & -> & Hl & Hd).
    exists l. split_and!; [reflexivity|apply prefix_length in Hpre; lia|exact Hd].
Qed.

End OrDefaults.

(** * The specification's claims *)

(** ** Failure kinds *)

(** A connect timeout derives from both [ConnectionError] and [Timeout]; the
    [except ConnectionError] clause comes first and takes it.  Read timeouts
    and plain timeouts are of the timeout kind. *)
Remark classify_timeouts :
  classify ConnectTimeout = except_ConnectionError
  /\ classify ReadTimeout = except_Timeout
  /\ classify Timeout = except_Timeout.
Proof. now split_and!. Qed.

(** Every exception is of one of the four kinds, and an exception is of the
    HTTP-error kind exactly when it is an [HTTPError]. *)
Remark classify_http e :
  classify e = except_HTTPError <-> exists code, e = HTTPError code.
Proof.
  split.
  - destruct e; try discriminate. eauto.
  - now intros [code ->].
Qed.

(** ** The chat proxy *)

(** C1, as the code has it.  On a list-valued transcript [T] with items
    [xs], if the POST fails with a [Timeout] that is not a [ConnectionError]
    as well, [call_api] returns the user message [m] as it came, a
    transcript whose items are [xs] followed by the one turn
    [(m, "Backend took too long. Please try again later.")], and that same
    message as status. *)
Theorem call_api_timeout BACKEND_URL net m T mode use_history s w xs e :
  list_of (heap w) T = Some xs ->
  chat_reply BACKEND_URL net m T mode use_history s w = Failed e ->
  isinstance e except_Timeout = true ->
  isinstance e except_ConnectionError = false ->
  exists l s' w',
    call_api BACKEND_URL net m T mode use_history s w
    = (Done (m, VRef l, s',
             VStr "Backend took too long. Please try again later."), w')
    /\ list_of (heap w') (VRef l)
       = Some (xs ++ [VTuple
            [m; VStr "Backend took too long. Please try again later."]]).
Proof.
  intros Hxs Hrep Ht Hc.
  destruct (call_api_failure BACKEND_URL net m T mode use_history s w xs e Hxs)
    as (msg & l & s' & w' & Hrun & _ & Hmsg & _ & _ & _ & _ & Hlist & _).
  { now rewrite Hrep. }
  assert (Hkind : classify e = except_Timeout)
    by (unfold classify; now rewrite Hc, Ht).
  rewrite (Hmsg Hkind) in *. now exists l, s', w'.
Qed.

Lemma call_api_timeout_witness :
  exists l s' w',
    call_api sample_url (net_fails ReadTimeout)
      (VStr "Where is the observatory located?") (VRef 3) (VStr "SFT_RAG")
      (VBool false) (VRef 1) sample_world
    = (Done (VStr "Where is the observatory located?", VRef l, s',
             VStr "Backend took too long. Please try again later."), w')
    /\ list_of (heap w') (VRef l)
       = Some ([VTuple [VStr "Hello"; VStr "Hi, how can I help?"]] ++
               [VTuple [VStr "Where is the observatory located?";
                        VStr "Backend took too long. Please try again later."]]).
Proof.
  apply (call_api_timeout sample_url (net_fails ReadTimeout) _ _ _ _ _ _ _
           ReadTimeout); reflexivity.
Defined.

(** The claim with every [Timeout] in it is false: a connect timeout is a
    [Timeout], and the call that fails with it is answered by the
    [except ConnectionError] clause, with the not-reachable message. *)
Lemma call_api_timeout_not_for_connect_timeout :
  ~ (forall BACKEND_URL net m T mode use_history s w xs e,
       list_of (heap w) T = Some xs ->
       chat_reply BACKEND_URL net m T mode use_history s w = Failed e ->
       isinstance e except_Timeout = true ->
       exists l s' w',
         call_api BACKEND_URL net m T mode use_history s w
         = (Done (m, VRef l, s',
                  VStr "Backend took too long. Please try again later."), w')
         /\ list_of (heap w') (VRef l)
            = Some (xs ++ [VTuple
                 [m; VStr "Backend took too long. Please try again later."]])).
Proof.
  intros H.
  destruct (H sample_url (net_fails ConnectTimeout) (VStr "Hello") (VRef 0)
              (VStr "SFT_RAG") (VBool false) (VRef 1) sample_world []
              ConnectTimeout eq_refl eq_refl eq_refl)
    as (l & s' & w' & Hrun & _).
  vm_compute in Hrun. discriminate Hrun.
Qed.




(** Outside the signature of [call_api]: with [None] for a transcript, a
    failed call raises [TypeError] from its handler. *)
Remark call_api_None_transcript_raises :
  (call_api sample_url (net_fails ConnectionError) (VStr "Hello") VNone
     (VStr "SFT_RAG") (VBool false) (VRef 1) sample_world).1
  = Raised TypeError.
Proof. reflexivity. Qed.

(** C5, as the code has it.  On every failure of the chat call (of
    whichever kind, on a list-valued transcript), the third output of
    [call_api] is [state or {}]: the input state itself when it is truthy,
    and a newly allocated empty dict when it is falsy.  For a dict-valued
    state this is a dict with the entries of the input (the input object
    itself unless the input is an empty dict); for [None] it is an empty
    dict and not [None].  No object that existed before the call is changed,
    the input state and whatever it refers to included. *)
Theorem call_api_failure_state BACKEND_URL net m T mode use_history s w xs e :
  list_of (heap w) T = Some xs ->
  valid (heap w) s ->
  failure_of (chat_reply BACKEND_URL net m T mode use_history s w) = Some e ->
  exists h s' status w',
    call_api BACKEND_URL net m T mode use_history s w
    = (Done (m, h, s', status), w')
    /\ heap w `prefix_of` heap w'
    /\ (truthy (heap w) s = true -> s' = s)
    /\ (truthy (heap w) s = false ->
        exists l, s' = VRef l /\ (length (heap w) <= l)%nat
                  /\ dict_of (heap w') s' = Some [])
    /\ (forall d, dict_of (heap w) s = Some d ->
          same_value (heap w) s (heap w') s'
          /\ dict_of (heap w') s' = Some d
          /\ (d <> [] -> s' = s)
          /\ dict_of (heap w') s = Some d).
Proof.
  intros Hxs Hv Ef.
  destruct (call_api_failure BACKEND_URL net m T mode use_history s w xs e
              Hxs Ef)
    as (msg & l & s' & w' & Hrun & _ & _ & _ & _ & _ & Hpre & _ & Hstate).
  destruct (call_api_failure_by_truth BACKEND_URL net m T mode use_history s w
              xs e Hxs Hv Ef)
    as (h2 & s2 & status2 & w2 & Hrun2 & Hsame & Hnew).
  rewrite Hrun in Hrun2. injection Hrun2 as <- <- <- <-.
  exists (VRef l), s', (VStr msg), w'. split_and!; try assumption.
  intros d Hd. destruct (Hstate d Hd) as [Hd' Hid].
  split_and!; try assumption.
  - right. right. now exists d.
  - eapply dict_of_prefix; eassumption.
Qed.

Lemma call_api_failure_state_witness :
  exists h s' status w',
    call_api sample_url (net_fails SSLError) (VStr "Hello") (VRef 0)
      (VStr "SFT") (VBool false) (VRef 1) sample_world
    = (Done (VStr "Hello", h, s', status), w')
    /\ heap sample_world `prefix_of` heap w'
    /\ (truthy (heap sample_world) (VRef 1) = true -> s' = VRef 1)
    /\ (truthy (heap sample_world) (VRef 1) = false ->
        exists l, s' = VRef l /\ (length (heap sample_world) <= l)%nat
                  /\ dict_of (heap w') s' = Some [])
    /\ (forall d, dict_of (heap sample_world) (VRef 1) = Some d ->
          same_value (heap sample_world) (VRef 1) (heap w') s'
          /\ dict_of (heap w') s' = Some d
          /\ (d <> [] -> s' = VRef 1)
          /\ dict_of (heap w') (VRef 1) = Some d).
Proof.
  apply (call_api_failure_state sample_url (net_fails SSLError) _ _ _ _ _ _
           [] SSLError); first [reflexivity | simpl; lia].
Defined.

(** The claim for every state is false: when the state is [None], a failed
    call returns a new empty dict, which is not [None]. *)
Lemma call_api_failure_state_not_for_None :
  ~ (forall BACKEND_URL net m T mode use_history s w xs e,
       list_of (heap w) T = Some xs ->
       failure_of (chat_reply BACKEND_URL net m T mode use_history s w)
       = Some e ->
       exists h s' status w',
         call_api BACKEND_URL net m T mode use_history s w
         = (Done (m, h, s', status), w')
         /\ same_value (heap w) s (heap w') s').
Proof.
  intros H.
  destruct (H sample_url (net_fails ConnectionError) (VStr "Hello") (VRef 0)
              (VStr "SFT_RAG") (VBool false) VNone sample_world []
              ConnectionError eq_refl eq_refl)
    as (h & s' & status & w' & Hrun & Hsame).
  vm_compute in Hrun. injection Hrun as <- <- <- <-.
  destruct Hsame as [Heq|[(xs & Hl & _)|(d & Hd & _)]]; discriminate.
Qed.

(** Outside the signature of [call_api]: with [None] for a state, a failed
    call returns a new empty dict in its place. *)
Remark call_api_None_state_replaced :
  exists h status w',
    call_api sample_url (net_fails ConnectionError) (VStr "Hello") (VRef 0)
      (VStr "SFT_RAG") (VBool false) VNone sample_world
    = (Done (VStr "Hello", h, VRef 8, status), w')
    /\ dict_of (heap w') (VRef 8) = Some [].
Proof. eexists _, _, _. split; reflexivity. Qed.

(** C6.  When the call succeeds (a response without error status whose body
    is a JSON object), an output the body has no member for falls back to
    the input: without [state] the returned state is the input state itself
    (the same reference, to an object the call has left alone), without
    [chat_history] the returned transcript is the input transcript, without
    [status] the returned status is the empty string. *)
Theorem call_api_fallbacks BACKEND_URL net m T mode use_history s w r ms :
  chat_reply BACKEND_URL net m T mode use_history s w = Replied r ->
  requests.is_error_status (status_code r) = false ->
  body r = Some (JObj ms) ->
  exists h s' status w',
    call_api BACKEND_URL net m T mode use_history s w
    = (Done (m, h, s', status), w')
    /\ heap w `prefix_of` heap w'
    /\ (member "state" ms = None -> s' = s)
    /\ (member "chat_history" ms = None -> h = T)
    /\ (member "status" ms = None -> status = VStr EmptyString).
Proof.
  intros Hrep Hst Hb.
  destruct (call_api_success BACKEND_URL net m T mode use_history s w)
    as (r' & ms' & d & w' & Hrep' & _ & Hb' & Hnone & Hrun & Hpre).
  { rewrite Hrep. simpl. now rewrite Hst, Hb. }
  rewrite Hrep in Hrep'. injection Hrep' as <-.
  rewrite Hb in Hb'. injection Hb' as <-.
  eexists _, _, _, w'. split; [exact Hrun|].
  split_and!; [exact Hpre|..]; intros Hm; now rewrite (Hnone _ Hm).
Qed.

Lemma call_api_fallbacks_witness :
  exists h s' status w',
    call_api sample_url (net_replies 200 (Some (JObj [])))
      (VStr "Hello") (VRef 3) (VStr "SFT") (VBool true) (VRef 1) sample_world
    = (Done (VStr "Hello", h, s', status), w')
    /\ heap sample_world `prefix_of` heap w'
    /\ (member "state" [] = None -> s' = VRef 1)
    /\ (member "chat_history" [] = None -> h = VRef 3)
    /\ (member "status" [] = None -> status = VStr EmptyString).
Proof.
  apply (call_api_fallbacks sample_url (net_replies 200 (Some (JObj []))) _ _
           _ _ _ _ {| status_code := 200; body := Some (JObj []) |});
    reflexivity.
Defined.

(** C7, as the code has it.  The payload [call_api] posts is a dict with
    exactly the five keys [user_msg], [chat_history], [mode], [use_history],
    [state].  Under [user_msg], [mode] and [use_history] it holds the inputs
    themselves (whatever the message is, the empty string included).  Under
    [chat_history] it holds [chat_history or []]: the input transcript
    itself when it is truthy, a newly allocated empty list when it is falsy;
    for a list-valued transcript that is a list with the items of the input.
    Under [state] it holds [state or {}]: the input state itself when it is
    truthy, a newly allocated empty dict when it is falsy; for a dict-valued
    state that is a dict with the entries of the input.  That payload is
    what goes out, in the one request the call makes. *)
Theorem payload_from_inputs BACKEND_URL net m T mode use_history s w :
  valid (heap w) T ->
  valid (heap w) s ->
  exists p h s' w1,
    payload m T mode use_history s w = (Done p, w1)
    /\ dict_of (heap w1) p
       = Some [ ("user_msg", m); ("chat_history", h); ("mode", mode);
                ("use_history", use_history); ("state", s') ]
    /\ (truthy (heap w) T = true -> h = T)
    /\ (truthy (heap w) T = false ->
        exists l, h = VRef l /\ (length (heap w) <= l)%nat
                  /\ list_of (heap w1) h = Some [])
    /\ (truthy (heap w) s = true -> s' = s)
    /\ (truthy (heap w) s = false ->
        exists l, s' = VRef l /\ (length (heap w) <= l)%nat
                  /\ dict_of (heap w1) s' = Some [])
    /\ (forall xs, list_of (heap w) T = Some xs ->
          list_of (heap w1) h = Some xs /\ same_value (heap w) T (heap w1) h)
    /\ (forall d, dict_of (heap w) s = Some d ->
          dict_of (heap w1) s' = Some d /\ same_value (heap w) s (heap w1) s')
    /\ chat_reply BACKEND_URL net m T mode use_history s w
       = net w1 (Request POST (BACKEND_URL +:+ "/chat") (Some p) 60 false)
    /\ wire (call_api BACKEND_URL net m T mode use_history s w).2
       = wire w ++ [Request POST (BACKEND_URL +:+ "/chat") (Some p) 60 false].
Proof.
  intros HT Hs.
  destruct (payload_by_truth m T mode use_history s w HT Hs)
    as (p & h & s' & w1 & Hp & Hdict & HTt & HTf & Hst & Hsf).
  destruct (payload_spec m T mode use_history s w)
    as (p2 & h2 & s2 & w2 & Hp2 & _ & _ & Hdict2 & Hh & Hs').
  rewrite Hp in Hp2. injection Hp2 as <- <-.
  rewrite Hdict in Hdict2. injection Hdict2 as <- <-.
  exists p, h, s', w1. split_and!; try assumption.
  - intros xs Hxs. split; [now apply Hh|]. right. left. exists xs. auto.
  - intros d Hd. split; [now apply Hs'|]. right. right. exists d. auto.
  - unfold chat_reply. now rewrite Hp.
  - now apply (call_api_wire_any BACKEND_URL net m T mode use_history s w p w1).
Qed.

Lemma payload_from_inputs_witness :
  exists p h s' w1,
    payload (VStr EmptyString) (VRef 3) (VStr "BASE_RAG") (VBool false)
      (VRef 1) sample_world = (Done p, w1)
    /\ dict_of (heap w1) p
       = Some [ ("user_msg", VStr EmptyString); ("chat_history", h);
                ("mode", VStr "BASE_RAG"); ("use_history", VBool false);
                ("state", s') ]
    /\ (truthy (heap sample_world) (VRef 3) = true -> h = VRef 3)
    /\ (truthy (heap sample_world) (VRef 3) = false ->
        exists l, h = VRef l /\ (length (heap sample_world) <= l)%nat
                  /\ list_of (heap w1) h = Some [])
    /\ (truthy (heap sample_world) (VRef 1) = true -> s' = VRef 1)
    /\ (truthy (heap sample_world) (VRef 1) = false ->
        exists l, s' = VRef l /\ (length (heap sample_world) <= l)%nat
                  /\ dict_of (heap w1) s' = Some [])
    /\ (forall xs, list_of (heap sample_world) (VRef 3) = Some xs ->
          list_of (heap w1) h = Some xs
          /\ same_value (heap sample_world) (VRef 3) (heap w1) h)
    /\ (forall d, dict_of (heap sample_world) (VRef 1) = Some d ->
          dict_of (heap w1) s' = Some d
          /\ same_value (heap sample_world) (VRef 1) (heap w1) s')
    /\ chat_reply sample_url (net_fails Timeout) (VStr EmptyString) (VRef 3)
         (VStr "BASE_RAG") (VBool false) (VRef 1) sample_world
       = net_fails Timeout w1
           (Request POST (sample_url +:+ "/chat") (Some p) 60 false)
    /\ wire (call_api sample_url (net_fails Timeout) (VStr EmptyString)
               (VRef 3) (VStr "BASE_RAG") (VBool false) (VRef 1)
               sample_world).2
       = wire sample_world
         ++ [Request POST (sample_url +:+ "/chat") (Some p) 60 false].
Proof.
  apply (payload_from_inputs sample_url (net_fails Timeout)); simpl; lia.
Defined.

(** The claim for every input is false: when the state is [None], the
    payload carries a new empty dict under [state], which is not [None]. *)
Lemma payload_state_not_None :
  ~ (forall m T mode use_history s w,
       exists p h s' w1,
         payload m T mode use_history s w = (Done p, w1)
         /\ dict_of (heap w1) p
            = Some [ ("user_msg", m); ("chat_history", h); ("mode", mode);
                     ("use_history", use_history); ("state", s') ]
         /\ same_value (heap w) T (heap w1) h
         /\ same_value (heap w) s (heap w1) s').
Proof.
  intros H.
  destruct (H (VStr "Hello") (VRef 3) (VStr "SFT_RAG") (VBool false) VNone
              sample_world)
    as (p & h & s' & w1 & Hrun & Hdict & _ & Hsame).
  vm_compute in Hrun. injection Hrun as <- <-.
  vm_compute in Hdict. injection Hdict as <- <-.
  destruct Hsame as [Heq|[(xs & Hl & _)|(d & Hd & _)]]; discriminate.
Qed.

(** A transcript or state that is empty goes out as a new empty list or
    dict, not as the input object; one that is not empty goes out as the
    input object itself. *)
Remark payload_empty_transcript_is_copied :
  (payload (VStr "Hello") (VRef 0) (VStr "SFT") (VBool false) (VRef 1)
     sample_world).2.(heap) !! 5%nat
  = Some (ODict [ ("user_msg", VStr "Hello"); ("chat_history", VRef 4);
                  ("mode", VStr "SFT"); ("use_history", VBool false);
                  ("state", VRef 1) ]).
Proof. reflexivity. Qed.

(** The text of an int, as the f-string of the [HTTPError] handler renders
    it: its decimal numeral. *)
Example pretty_status_codes :
  pretty 404 = "404" /\ pretty 500 = "500" /\ pretty 503 = "503".
Proof. now split_and!. Qed.

(** C8.  Each failure of the chat call is answered with the message of its
    kind, which is both the assistant text of the appended turn and the
    returned status: the not-reachable message for the connection kind, the
    took-too-long message for the timeout kind, a message that spells out the
    status code of the response for an [HTTPError], and the unknown-error
    message for any other exception. *)
Theorem call_api_failure_message BACKEND_URL net m T mode use_history s w xs e :
  list_of (heap w) T = Some xs ->
  failure_of (chat_reply BACKEND_URL net m T mode use_history s w) = Some e ->
  exists msg l s' w',
    call_api BACKEND_URL net m T mode use_history s w
    = (Done (m, VRef l, s', VStr msg), w')
    /\ list_of (heap w') (VRef l) = Some (xs ++ [VTuple [m; VStr msg]])
    /\ (classify e = except_ConnectionError ->
        msg = "Backend not reachable (connection refused). Please retry when the backend server is running...")
    /\ (classify e = except_Timeout ->
        msg = "Backend took too long. Please try again later.")
    /\ (forall code, e = HTTPError code ->
        msg = "Backend returned HTTP Error : " +:+ pretty code +:+ ".")
    /\ (forall r,
        chat_reply BACKEND_URL net m T mode use_history s w = Replied r ->
        requests.is_error_status (status_code r) = true ->
        msg = "Backend returned HTTP Error : " +:+ pretty (status_code r)
              +:+ ".")
    /\ (classify e = except_Exception -> msg = "Unknown client error.").
Proof.
  intros Hxs Ef.
  destruct (call_api_failure BACKEND_URL net m T mode use_history s w xs e
              Hxs Ef)
    as (msg & l & s' & w' & Hrun & Hc & Ht & Hh & Hu & _ & _ & Hlist & _).
  exists msg, l, s', w'. split_and!; try assumption.
  intros r Hrep Hst. apply Hh.
  rewrite Hrep in Ef. simpl in Ef. rewrite Hst in Ef. congruence.
Qed.

Lemma call_api_failure_message_witness :
  exists msg l s' w',
    call_api sample_url (net_replies 503 None) (VStr "Hello") (VRef 3)
      (VStr "SFT_RAG") (VBool false) (VRef 1) sample_world
    = (Done (VStr "Hello", VRef l, s', VStr msg), w')
    /\ list_of (heap w') (VRef l)
       = Some ([VTuple [VStr "Hello"; VStr "Hi, how can I help?"]]
               ++ [VTuple [VStr "Hello"; VStr msg]])
    /\ (classify (HTTPError 503) = except_ConnectionError ->
        msg = "Backend not reachable (connection refused). Please retry when the backend server is running...")
    /\ (classify (HTTPError 503) = except_Timeout ->
        msg = "Backend took too long. Please try again later.")
    /\ (forall code, HTTPError 503 = HTTPError code ->
        msg = "Backend returned HTTP Error : " +:+ pretty code +:+ ".")
    /\ (forall r,
        chat_reply sample_url (net_replies 503 None) (VStr "Hello") (VRef 3)
          (VStr "SFT_RAG") (VBool false) (VRef 1) sample_world = Replied r ->
        requests.is_error_status (status_code r) = true ->
        msg = "Backend returned HTTP Error : " +:+ pretty (status_code r)
              +:+ ".")
    /\ (classify (HTTPError 503) = except_Exception ->
        msg = "Unknown client error.").
Proof.
  apply (call_api_failure_message sample_url (net_replies 503 None));
    reflexivity.
Defined.

Example call_api_http_error_503 :
  (call_api sample_url (net_replies 503 None) (VStr "Hello") (VRef 0)
     (VStr "SFT_RAG") (VBool false) (VRef 1) sample_world).1
  = Done (VStr "Hello", VRef 6, VRef 1,
          VStr "Backend returned HTTP Error : 503.").
Proof. reflexivity. Qed.

(** C9.  When the call succeeds, the first output of [call_api] is the user
    message it was given, whatever that message is. *)
Theorem call_api_success_keeps_prompt BACKEND_URL net m T mode use_history s w :
  failure_of (chat_reply BACKEND_URL net m T mode use_history s w) = None ->
  exists h s' status w',
    call_api BACKEND_URL net m T mode use_history s w
    = (Done (m, h, s', status), w').
Proof.
  intros Hok.
  destruct (call_api_success BACKEND_URL net m T mode use_history s w Hok)
    as (r & ms & d & w' & _ & _ & _ & _ & Hrun & _).
  eauto.
Qed.

Lemma call_api_success_keeps_prompt_witness :
  exists h s' status w',
    call_api sample_url
      (net_replies 200 (Some (JObj [("status", JStr "mode=SFT")])))
      (VStr EmptyString) (VRef 0) (VStr "SFT") (VBool false) (VRef 1)
      sample_world
    = (Done (VStr EmptyString, h, s', status), w').
Proof.
  apply (call_api_success_keeps_prompt sample_url
           (net_replies 200 (Some (JObj [("status", JStr "mode=SFT")]))));
    reflexivity.
Defined.

(** C10.  [call_api] leaves every object that existed before the call as it
    was, the caller's transcript list among them: after the call the list
    has the items it had before.  On a failure the returned transcript is a
    list allocated during the call, a different object from the input. *)
Theorem call_api_transcript_untouched
    BACKEND_URL net m T mode use_history s w xs :
  list_of (heap w) T = Some xs ->
  exists res w',
    call_api BACKEND_URL net m T mode use_history s w = (res, w')
    /\ heap w `prefix_of` heap w'
    /\ list_of (heap w') T = Some xs
    /\ (forall e,
        failure_of (chat_reply BACKEND_URL net m T mode use_history s w)
        = Some e ->
        exists msg l s',
          res = Done (m, VRef l, s', VStr msg)
          /\ (length (heap w) <= l)%nat
          /\ VRef l <> T
          /\ list_of (heap w') (VRef l)
             = Some (xs ++ [VTuple [m; VStr msg]])).
Proof.
  intros Hxs.
  destruct (failure_of (chat_reply BACKEND_URL net m T mode use_history s w))
    as [e|] eqn:Ef.
  - destruct (call_api_failure BACKEND_URL net m T mode use_history s w xs e
                Hxs Ef)
      as (msg & l & s' & w' & Hrun & _ & _ & _ & _ & Hfresh & Hpre & Hlist & _).
    eexists _, w'. split; [exact Hrun|]. split_and!; [exact Hpre|..].
    + eapply list_of_prefix; eassumption.
    + intros e' _. exists msg, l, s'. split_and!; try done.
      intros <-. simpl in Hxs.
      destruct (heap w !! l) eqn:El; [|discriminate].
      apply lookup_lt_Some in El. lia.
  - destruct (call_api_success BACKEND_URL net m T mode use_history s w Ef)
      as (r & ms & d & w' & _ & _ & _ & _ & Hrun & Hpre).
    eexists _, w'. split; [exact Hrun|]. split_and!; [exact Hpre|..].
    + eapply list_of_prefix; eassumption.
    + discriminate.
Qed.

Lemma call_api_transcript_untouched_witness :
  exists res w',
    call_api sample_url (net_fails ConnectionError) (VStr "Hello") (VRef 3)
      (VStr "SFT") (VBool false) (VRef 1) sample_world = (res, w')
    /\ heap sample_world `prefix_of` heap w'
    /\ list_of (heap w') (VRef 3)
       = Some [VTuple [VStr "Hello"; VStr "Hi, how can I help?"]]
    /\ (forall e,
        failure_of (chat_reply sample_url (net_fails ConnectionError)
                      (VStr "Hello") (VRef 3) (VStr "SFT") (VBool false)
                      (VRef 1) sample_world)
        = Some e ->
        exists msg l s',
          res = Done (VStr "Hello", VRef l, s', VStr msg)
          /\ (length (heap sample_world) <= l)%nat
          /\ VRef l <> VRef 3
          /\ list_of (heap w') (VRef l)
             = Some ([VTuple [VStr "Hello"; VStr "Hi, how can I help?"]]
                     ++ [VTuple [VStr "Hello"; VStr msg]])).
Proof.
  apply (call_api_transcript_untouched sample_url (net_fails ConnectionError));
    reflexivity.
Defined.

(** ** The health probe *)

Lemma check_backend_cases BACKEND_URL net w :
  (answers_ok (health_reply BACKEND_URL net w)
   /\ (check_backend BACKEND_URL net w).1 = Done (VStr "backend=READY"))
  \/ (~ answers_ok (health_reply BACKEND_URL net w)
      /\ (check_backend BACKEND_URL net w).1 = Done (VStr "backend=DOWN")).
Proof.
  (* the cases that end in [backend=DOWN] *)
  assert (Hdown : forall (rep : reply) (o : outcome val),
             o = Done (VStr "backend=DOWN") ->
             (forall r ms, rep = Replied r ->
                requests.is_error_status (status_code r) = false ->
                body r = Some (JObj ms) ->
                member "status" ms = Some (JStr "ok") -> False) ->
             (answers_ok rep /\ o = Done (VStr "backend=READY"))
             \/ (~ answers_ok rep /\ o = Done (VStr "backend=DOWN"))).
  { intros rep o -> Hno. right. split; [|reflexivity].
    intros (r & ms & Hr & Hs & Hb & Hm). eauto. }
  unfold health_reply, check_backend, bind, try_except,
    requests.get, requests.send.
  destruct (net w _) as [r|e]; simpl.
  2:{ apply Hdown; [reflexivity|]. discriminate. }
  unfold requests.raise_for_status, requests.ok, try_except, bind,
    requests.raise_for_status.
  destruct (requests.is_error_status (status_code r)) eqn:Est; simpl.
  { apply Hdown; [reflexivity|]. intros r' ms [= <-]. congruence. }
  unfold requests.json, get. cbn [heap wire].
  destruct (body r) as [j|] eqn:Eb; simpl.
  2:{ apply Hdown; [reflexivity|]. intros r' ms [= <-]. congruence. }
  pose proof (loads_dict_of j (heap w)) as Hd.
  destruct (loads j (heap w)) as [v h'] eqn:El. cbn [fst snd heap] in *.
  rewrite Hd.
  destruct j as [| | | |js|ms];
    try (apply Hdown; [reflexivity|]; intros r' ms' [= <-]; congruence).
  simpl.
  pose proof (load_members_lookup "status" ms [] (heap w)) as Hm.
  destruct (member "status" ms) as [j'|] eqn:Em.
  - destruct Hm as [hj Hm]. rewrite Hm. cbn [from_option id].
    rewrite loads_eq_str.
    destruct j' as [| | |s'| |];
      try (apply Hdown; [reflexivity|]; intros r' ms' [= <-]; congruence).
    destruct (String.eqb_spec s' "ok") as [->|Hne].
    + left. split; [|reflexivity]. now exists r, ms.
    + apply Hdown; [reflexivity|]. intros r' ms' [= <-]. congruence.
  - rewrite Hm. simpl.
    apply Hdown; [reflexivity|]. intros r' ms' [= <-]. congruence.
Qed.

(** C3, as the code has it.  [check_backend] reports [backend=READY] if and
    only if the request got a response, the response's status is not an
    error status (any code outside 400 to 599, which is what
    [raise_for_status] and [ok] test), and the JSON body is an object whose
    [status] member is exactly the string [ok]; in every other case it
    reports [backend=DOWN]. *)
Theorem check_backend_ready_iff BACKEND_URL net w :
  ((check_backend BACKEND_URL net w).1 = Done (VStr "backend=READY")
   <-> answers_ok (health_reply BACKEND_URL net w))
  /\ ((check_backend BACKEND_URL net w).1 = Done (VStr "backend=DOWN")
      <-> ~ answers_ok (health_reply BACKEND_URL net w)).
Proof.
  destruct (check_backend_cases BACKEND_URL net w) as [[Hy Hr]|[Hn Hr]];
    rewrite Hr; split; split; intros H; try done.
Qed.

(** With success read as a 2xx status the claim is false: a response with
    status 300 and body [{"status": "ok"}] is reported as ready. *)
Lemma check_backend_ready_on_300 :
  ~ (forall BACKEND_URL net w,
       (check_backend BACKEND_URL net w).1 = Done (VStr "backend=READY")
       <-> exists r ms,
             health_reply BACKEND_URL net w = Replied r
             /\ spec_success_status (status_code r) = true
             /\ body r = Some (JObj ms)
             /\ member "status" ms = Some (JStr "ok")).
Proof.
  intros H.
  destruct (H sample_url
              (net_replies 300 (Some (JObj [("status", JStr "ok")])))
              sample_world) as [Hready _].
  destruct (Hready eq_refl) as (r & ms & Hr & Hs & _).
  injection Hr as <-. discriminate Hs.
Qed.

Example check_backend_pending :
  (check_backend sample_url
     (net_replies 200 (Some (JObj [("status", JStr "pending")])))
     sample_world).1
  = Done (VStr "backend=DOWN").
Proof. reflexivity. Qed.

Example check_backend_ok :
  (check_backend sample_url
     (net_replies 200 (Some (JObj [("status", JStr "ok")])))
     sample_world).1
  = Done (VStr "backend=READY").
Proof. reflexivity. Qed.

(** The status test is that of [requests]: 4xx and 5xx are errors, every
    other code passes, a 3xx that was not followed included. *)
Example check_backend_status_300 :
  (check_backend sample_url
     (net_replies 300 (Some (JObj [("status", JStr "ok")])))
     sample_world).1
  = Done (VStr "backend=READY").
Proof. reflexivity. Qed.

(** ** The sample questions *)

(** C4, as the code has it.  [fetch_sample_questions] returns a list on every
    path and raises on none.  When the backend answers with a JSON array
    (and no error status), the list is the decoded array, with as many
    items as the array: it is empty when the array is.  On every other path
    (an exception, a 4xx or 5xx status, a body that is not JSON or not an
    array) it is the fixed list of six questions. *)
Theorem fetch_sample_questions_spec BACKEND_URL net w :
  exists v qs w',
    fetch_sample_questions BACKEND_URL net w = (Done v, w')
    /\ list_of (heap w') v = Some qs
    /\ (forall js,
        answers_list (questions_reply BACKEND_URL net w) js ->
        qs = (load_items loads js (heap w)).1 /\ length qs = length js)
    /\ ((forall js, ~ answers_list (questions_reply BACKEND_URL net w) js) ->
        qs = map VStr fallback_questions /\ length qs = 6%nat).
Proof.
  (* the paths that end in the fallback list *)
  assert (Hfall : forall (rep : reply) (w1 : world),
    (forall js, ~ answers_list rep js) ->
    exists v qs w',
      alloc (OList (map VStr fallback_questions)) w1 = (Done v, w')
      /\ list_of (heap w') v = Some qs
      /\ (forall js, answers_list rep js ->
          qs = (load_items loads js (heap w)).1 /\ length qs = length js)
      /\ ((forall js, ~ answers_list rep js) ->
          qs = map VStr fallback_questions /\ length qs = 6%nat)).
  { intros rep w1 Hno. eexists _, _, _. split; [reflexivity|].
    split; [apply list_of_alloc|]. split; [|now split].
    intros js Hjs. now destruct (Hno js). }
  unfold questions_reply, fetch_sample_questions, bind, try_except,
    requests.get, requests.send.
  destruct (net w _) as [r|e]; simpl.
  2:{ apply Hfall. intros js (r & [=] & _). }
  unfold requests.raise_for_status.
  destruct (requests.is_error_status (status_code r)) eqn:Est; simpl.
  { apply Hfall. intros js (r' & [= <-] & Hst & _). congruence. }
  unfold requests.json. cbn [heap wire].
  destruct (body r) as [j|] eqn:Eb; simpl.
  2:{ apply Hfall. intros js (r' & [= <-] & _ & Hb). congruence. }
  pose proof (loads_list_of j (heap w)) as Hl.
  destruct (loads j (heap w)) as [v h'] eqn:El. cbn [fst snd heap] in *.
  unfold isinstance_list. cbn [heap]. rewrite Hl.
  destruct j as [| | | |js|ms];
    try (apply Hfall; intros js' (r' & [= <-] & _ & Hb); congruence).
  unfold ret. eexists v, _, _. split; [reflexivity|]. cbn [heap].
  split; [exact Hl|]. split.
  - intros js' (r' & [= <-] & _ & Hb). rewrite Eb in Hb.
    injection Hb as <-. split; [reflexivity|]. apply load_items_length.
  - intros Hno. destruct (Hno js). now exists r.
Qed.

(** The backend can send an empty array, and then the returned list is
    empty: the claim that the list is non-empty on every path is false. *)
Lemma fetch_sample_questions_can_be_empty :
  ~ (forall BACKEND_URL net w,
       exists v qs w',
         fetch_sample_questions BACKEND_URL net w = (Done v, w')
         /\ list_of (heap w') v = Some qs
         /\ qs <> []).
Proof.
  intros H.
  destruct (H sample_url (net_replies 200 (Some (JArr []))) sample_world)
    as (v & qs & w' & Hrun & Hqs & Hne).
  vm_compute in Hrun. injection Hrun as <- <-.
  vm_compute in Hqs. congruence.
Qed.

Example fetch_sample_questions_empty_array :
  (fetch_sample_questions sample_url (net_replies 200 (Some (JArr [])))
     sample_world).1 = Done (VRef 4)
  /\ list_of (fetch_sample_questions sample_url
                (net_replies 200 (Some (JArr []))) sample_world).2.(heap)
       (VRef 4) = Some [].
Proof. split; reflexivity. Qed.

(** A response outside 2xx that is no error for [raise_for_status], such as
    a 3xx that was not followed, is on the success path as well. *)
Example fetch_sample_questions_status_300 :
  list_of (fetch_sample_questions sample_url
             (net_replies 300 (Some (JArr [JStr "Which filters exist?"])))
             sample_world).2.(heap)
    (VRef 4) = Some [VStr "Which filters exist?"].
Proof. reflexivity. Qed.

Example fetch_sample_questions_fallback :
  exists v w',
    fetch_sample_questions sample_url (net_fails ConnectionError) sample_world
    = (Done v, w')
    /\ list_of (heap w') v = Some (map VStr fallback_questions).
Proof. now eexists _, _. Qed.

(** ** The scenarios of the specification *)

(** A first question on an empty transcript, answered by the backend with a
    one-turn transcript, a state with a session id, and a status. *)
Example scenario_first_question :
  let answer :=
    JObj [ ("chat_history",
            JArr [JArr [JStr "Where is the observatory located?";
                        JStr "It is located at ..."]]);
           ("state", JObj [("session_id", JStr "abc123");
                           ("memory", JArr [])]);
           ("status", JStr "mode=SFT_RAG · memory=1/10") ] in
  exists h s' w',
    call_api sample_url (net_replies 200 (Some answer))
      (VStr "Where is the observatory located?") (VRef 0) (VStr "SFT_RAG")
      (VBool false) (VRef 1) sample_world
    = (Done (VStr "Where is the observatory located?", h, s',
             VStr "mode=SFT_RAG · memory=1/10"), w')
    /\ (exists turn,
          list_of (heap w') h = Some [turn]
          /\ list_of (heap w') turn
             = Some [VStr "Where is the observatory located?";
                     VStr "It is located at ..."])
    /\ (exists mem,
          dict_of (heap w') s'
          = Some [("session_id", VStr "abc123"); ("memory", mem)]).
Proof.
  eexists _, _, _. split; [reflexivity|].
  split; [eexists; split; reflexivity|eexists; reflexivity].
Qed.

(** The backend is unreachable. *)
Example scenario_unreachable :
  exists l w',
    call_api sample_url (net_fails ConnectionError)
      (VStr "Where is the observatory located?") (VRef 0) (VStr "SFT_RAG")
      (VBool false) (VRef 1) sample_world
    = (Done (VStr "Where is the observatory located?", VRef l, VRef 1,
             VStr "Backend not reachable (connection refused). Please retry when the backend server is running..."), w')
    /\ list_of (heap w') (VRef l)
       = Some [VTuple [VStr "Where is the observatory located?";
                       VStr "Backend not reachable (connection refused). Please retry when the backend server is running..."]].
Proof. eexists _, _. split; reflexivity. Qed.

(** * Further properties of [app.py] *)

(** ** The configured base URL *)

Lemma rstrip_spec s :
  exists n,
    s = rstrip "/" s +:+ slashes n /\ ends_with "/" (rstrip "/" s) = false.
Proof.
  induction s as [|a s (n & Hs & He)]; [now exists 0%nat|].
  cbn [rstrip]. destruct (rstrip "/" s) as [|b r] eqn:Er.
  - change (s = slashes n) in Hs.
    destruct (Ascii.eqb a "/") eqn:Ea.
    + apply Ascii.eqb_eq in Ea. subst a. exists (S n). split; [|reflexivity].
      change (String "/" s = String "/" (slashes n)). now rewrite <- Hs.
    + exists n. split; [|simpl; exact Ea].
      change (String a s = String a (slashes n)). now rewrite <- Hs.
  - exists n. split; [|exact He].
    change (String a s = String a (String b r +:+ slashes n)).
    now rewrite <- Hs.
Qed.

Lemma rstrip_keeps s : ends_with "/" s = false -> rstrip "/" s = s.
Proof.
  induction s as [|a s IH]; [reflexivity|]. intros He. cbn [rstrip].
  destruct s as [|b s'].
  - simpl in *. now rewrite He.
  - rewrite IH by exact He. reflexivity.
Qed.

Lemma resolve_BACKEND_URL_strips_aux env :
  exists n,
    getenv env "BACKEND_URL" "http://localhost:7861"
    = resolve_BACKEND_URL env +:+ slashes n
    /\ ends_with "/" (resolve_BACKEND_URL env) = false.
Proof. apply rstrip_spec. Qed.

(** X1.  The base URL is the configured one (the value of [BACKEND_URL], or
    the local default) without its trailing slashes: putting some number of
    slashes back gives the configured text, and the base URL itself does not
    end with a slash. *)
Theorem resolve_BACKEND_URL_strips env :
  exists n,
    getenv env "BACKEND_URL" "http://localhost:7861"
    = resolve_BACKEND_URL env +:+ slashes n
    /\ ends_with "/" (resolve_BACKEND_URL env) = false.
Proof. apply rstrip_spec. Qed.

(** X2.  A configured URL that does not end with a slash is taken as it is,
    and resolving an already resolved URL changes nothing, whatever the
    configured URL was. *)
Theorem resolve_BACKEND_URL_keeps env :
  (ends_with "/" (getenv env "BACKEND_URL" "http://localhost:7861") = false ->
   resolve_BACKEND_URL env = getenv env "BACKEND_URL" "http://localhost:7861")
  /\ resolve_BACKEND_URL (fun _ => Some (resolve_BACKEND_URL env))
     = resolve_BACKEND_URL env.
Proof.
  split; [apply rstrip_keeps|].
  change (rstrip "/" (resolve_BACKEND_URL env) = resolve_BACKEND_URL env).
  apply rstrip_keeps.
  destruct (resolve_BACKEND_URL_strips_aux env) as (n & _ & He). exact He.
Qed.

Example resolve_BACKEND_URL_examples :
  resolve_BACKEND_URL (fun _ => None) = "http://localhost:7861"
  /\ resolve_BACKEND_URL (fun _ => Some "https://api.example.org//")
     = "https://api.example.org"
  /\ resolve_BACKEND_URL
       (fun _ => Some (resolve_BACKEND_URL
                         (fun _ => Some "https://api.example.org//")))
     = "https://api.example.org"
  /\ resolve_BACKEND_URL (fun _ => Some "///") = EmptyString.
Proof. now split_and!. Qed.

(** ** The share flag *)

Lemma lower_ascii_letter (c : ascii) :
  (Ascii.eqb (lower_ascii c) "t" = Ascii.eqb c "t" || Ascii.eqb c "T")
  /\ (Ascii.eqb (lower_ascii c) "r" = Ascii.eqb c "r" || Ascii.eqb c "R")
  /\ (Ascii.eqb (lower_ascii c) "u" = Ascii.eqb c "u" || Ascii.eqb c "U")
  /\ (Ascii.eqb (lower_ascii c) "e" = Ascii.eqb c "e" || Ascii.eqb c "E").
Proof.
  destruct c as [[] [] [] [] [] [] [] []]; vm_compute; now split_and!.
Qed.

(** X3.  Sharing is on exactly when [GRADIO_PUBLIC_SHARE] is unset or spells
    [true] in any mix of upper and lower case; every other value, the empty
    one included, turns it off. *)
Theorem share_iff env :
  share env = true <->
  env "GRADIO_PUBLIC_SHARE" = None
  \/ exists c1 c2 c3 c4,
       env "GRADIO_PUBLIC_SHARE"
       = Some (String c1 (String c2 (String c3 (String c4 EmptyString))))
       /\ (c1 = "t" \/ c1 = "T")%char /\ (c2 = "r" \/ c2 = "R")%char
       /\ (c3 = "u" \/ c3 = "U")%char /\ (c4 = "e" \/ c4 = "E")%char.
Proof.
  assert (Hor : forall c x y : ascii,
             Ascii.eqb c x || Ascii.eqb c y = true <-> c = x \/ c = y).
  { intros c x y. rewrite orb_true_iff, !Ascii.eqb_eq. tauto. }
  unfold share, getenv.
  destruct (env "GRADIO_PUBLIC_SHARE") as [s|]; simpl; [|tauto].
  split.
  - intros H. right.
    destruct s as [|c1 [|c2 [|c3 [|c4 [|c5 s]]]]]; simpl in H;
      try discriminate;
      repeat match type of H with
             | (if ?b then _ else _) = true =>
                 destruct b eqn:?; [|discriminate]
             end; try discriminate.
    exists c1, c2, c3, c4. split; [reflexivity|].
    destruct (lower_ascii_letter c1) as (E1 & _).
    destruct (lower_ascii_letter c2) as (_ & E2 & _).
    destruct (lower_ascii_letter c3) as (_ & _ & E3 & _).
    destruct (lower_ascii_letter c4) as (_ & _ & _ & E4).
    rewrite <- !Hor. rewrite <- E1, <- E2, <- E3, <- E4. now split_and!.
  - intros [[=]|(c1 & c2 & c3 & c4 & [= ->] & H1 & H2 & H3 & H4)].
    apply Hor in H1, H2, H3, H4.
    destruct (lower_ascii_letter c1) as (E1 & _).
    destruct (lower_ascii_letter c2) as (_ & E2 & _).
    destruct (lower_ascii_letter c3) as (_ & _ & E3 & _).
    destruct (lower_ascii_letter c4) as (_ & _ & _ & E4).
    simpl. now rewrite E1, H1, E2, H2, E3, H3, E4, H4.
Qed.

Example share_examples :
  share (fun _ => None) = true
  /\ share (fun _ => Some "TRUE") = true
  /\ share (fun _ => Some "1") = false
  /\ share (fun _ => Some "yes") = false
  /\ share (fun _ => Some EmptyString) = false.
Proof. now split_and!. Qed.

(** ** The sample-question picker *)

(** X4.  [_pick_sample] never puts [None] into the prompt: a str selection
    is passed on as it is, a cleared selection ([None]) becomes the empty
    string, and any truthy value is passed on unchanged.  The dropdown is
    always reset to [None], and no object is touched. *)
Theorem _pick_sample_spec q w :
  exists prompt,
    _pick_sample q w = (Done (prompt, VNone), w)
    /\ prompt <> VNone
    /\ (forall s, q = VStr s -> prompt = VStr s)
    /\ (q = VNone -> prompt = VStr EmptyString)
    /\ (truthy (heap w) q = true -> prompt = q).
Proof.
  unfold _pick_sample, bind, py_or, ret.
  destruct (truthy (heap w) q) eqn:Et.
  - exists q. split_and!; try congruence.
    + intros ->. discriminate.
    + intros ->. discriminate.
  - exists (VStr EmptyString). split_and!; try congruence.
    intros s ->. simpl in Et. destruct s; [reflexivity|discriminate].
Qed.

(** ** The probes on the wire *)

Lemma load_items_prefix js : forall h, h `prefix_of` (load_items loads js h).2.
Proof.
  induction js as [|j js IH]; intros h; simpl; [reflexivity|].
  pose proof (loads_prefix j h) as H1.
  destruct (loads j h) as [v h1]. specialize (IH h1).
  destruct (load_items loads js h1) as [vs h2]. simpl in *.
  etrans; eassumption.
Qed.

Lemma load_members_prefix ms :
  forall d h, h `prefix_of` (load_members loads ms d h).2.
Proof.
  induction ms as [|[k j] ms IH]; intros d h; simpl; [reflexivity|].
  pose proof (loads_prefix j h) as H1.
  destruct (loads j h) as [v h1]. simpl in *.
  etrans; [exact H1|apply IH].
Qed.

(** X5.  Whatever the backend does, [check_backend] raises nothing, sends
    exactly one request (a GET of [BACKEND_URL/health] with a timeout of 10,
    redirects followed) and leaves every existing object as it was. *)
Theorem check_backend_once BACKEND_URL net w :
  exists v w',
    check_backend BACKEND_URL net w = (Done v, w')
    /\ wire w' = wire w ++ [Request GET (BACKEND_URL +:+ "/health") None 10 true]
    /\ heap w `prefix_of` heap w'.
Proof.
  unfold check_backend, bind, try_except, requests.get, requests.send.
  destruct (net w _) as [r|e]; simpl.
  2:{ eexists _, _. now split_and!. }
  unfold requests.raise_for_status, requests.ok, try_except, bind,
    requests.raise_for_status.
  destruct (requests.is_error_status (status_code r)); simpl.
  { eexists _, _. now split_and!. }
  unfold requests.json, get. cbn [heap wire].
  destruct (body r) as [j|]; simpl.
  2:{ eexists _, _. now split_and!. }
  pose proof (loads_prefix j (heap w)) as Hpre.
  destruct (loads j (heap w)) as [v h']. cbn [fst snd heap] in *.
  destruct (dict_of h' v) as [d|]; simpl.
  - destruct (eq_str _ _); eexists _, _; now split_and!.
  - eexists _, _. now split_and!.
Qed.

(** X6.  Whatever the backend does, [fetch_sample_questions] sends exactly
    one request (a GET of [BACKEND_URL/sample_questions] with a timeout of
    10), leaves every existing object as it was, and returns a list object
    allocated during the call: no two calls share their result, and the
    result shares nothing with the caller's objects. *)
Theorem fetch_sample_questions_once BACKEND_URL net w :
  exists l w',
    fetch_sample_questions BACKEND_URL net w = (Done (VRef l), w')
    /\ wire w'
       = wire w
         ++ [Request GET (BACKEND_URL +:+ "/sample_questions") None 10 true]
    /\ heap w `prefix_of` heap w'
    /\ (length (heap w) <= l < length (heap w'))%nat
    /\ isinstance_list (heap w') (VRef l) = true.
Proof.
  unfold fetch_sample_questions, bind, try_except, requests.get,
    requests.send.
  assert (Hfall : forall h',
    heap w `prefix_of` h' ->
    exists l w',
      alloc (OList (map VStr fallback_questions))
        {| heap := h';
           wire := wire w ++ [Request GET (BACKEND_URL +:+ "/sample_questions")
                                None 10 true] |}
      = (Done (VRef l), w')
      /\ wire w'
         = wire w ++ [Request GET (BACKEND_URL +:+ "/sample_questions")
                        None 10 true]
      /\ heap w `prefix_of` heap w'
      /\ (length (heap w) <= l < length (heap w'))%nat
      /\ isinstance_list (heap w') (VRef l) = true).
  { intros h' Hpre. eexists _, _. split; [reflexivity|]. cbn [heap wire].
    split_and!; [reflexivity|now apply prefix_app_r|now apply prefix_length
                |rewrite length_app; simpl; lia|].
    unfold isinstance_list. now rewrite list_of_alloc. }
  destruct (net w _) as [r|e]; simpl.
  2:{ now apply Hfall. }
  unfold requests.raise_for_status.
  destruct (requests.is_error_status (status_code r)); simpl.
  { now apply Hfall. }
  unfold requests.json. cbn [heap wire].
  destruct (body r) as [j|]; simpl.
  2:{ now apply Hfall. }
  pose proof (loads_prefix j (heap w)) as Hpre.
  pose proof (loads_list_of j (heap w)) as Hl.
  destruct (loads j (heap w)) as [v h'] eqn:El. cbn [fst snd heap] in *.
  unfold isinstance_list at 1. cbn [heap]. rewrite Hl.
  destruct j as [| | | |js|ms]; try (now apply Hfall).
  simpl in El. pose proof (load_items_prefix js (heap w)) as Hi.
  destruct (load_items loads js (heap w)) as [vs h2]. simpl in Hi.
  injection El as <- <-. unfold ret. eexists _, _. split; [reflexivity|].
  cbn [heap wire]. split_and!; [reflexivity|exact Hpre|now apply prefix_length
                               |rewrite length_app; simpl; lia|].
  unfold isinstance_list. now rewrite list_of_alloc.
Qed.

(** ** More on [call_api] *)

(** The decoded dict binds [k] to the decoding of the last member named
    [k], an object (if any) that is allocated during the decoding and is
    still there at its end. *)
Lemma load_members_lookup_strong k ms :
  forall d h j,
    member k ms = Some j ->
    exists hj,
      h `prefix_of` hj
      /\ (loads j hj).2 `prefix_of` (load_members loads ms d h).2
      /\ dict_lookup k (load_members loads ms d h).1 = Some (loads j hj).1.
Proof.
  induction ms as [|[k' j'] ms IH]; intros d h j Hm; simpl in *;
    [discriminate|].
  pose proof (loads_prefix j' h) as H1.
  destruct (loads j' h) as [v h1] eqn:E. simpl in H1.
  destruct (member k ms) as [j''|] eqn:Em.
  - injection Hm as ->.
    destruct (IH (dict_set k' v d) h1 j eq_refl) as (hj & Hp & Hq & Hl).
    exists hj. split_and!; [etrans; eassumption|exact Hq|exact Hl].
  - destruct (String.eqb k k') eqn:Ek; [|discriminate].
    injection Hm as ->. apply String.eqb_eq in Ek. subst k'.
    exists h. rewrite E. split_and!; [reflexivity|apply load_members_prefix|].
    pose proof (load_members_lookup k ms (dict_set k v d) h1) as Hl.
    rewrite Em in Hl. now rewrite Hl, dict_lookup_set_eq.
Qed.

Section MorePieces.

Variable BACKEND_URL : string.
Variable net : world -> request -> reply.

(** The [try] block on success, with the store it ends in: the store it
    starts from, extended by the decoding of the body. *)
Lemma call_api_try_success_heap user_msg chat_history state p w :
  failure_of (net w (chat_request BACKEND_URL p)) = None ->
  exists r ms w',
    net w (chat_request BACKEND_URL p) = Replied r
    /\ body r = Some (JObj ms)
    /\ (let d := (load_members loads ms [] (heap w)).1 in
        call_api_try BACKEND_URL net user_msg chat_history state p w
        = (Done (user_msg,
                 default chat_history (dict_lookup "chat_history" d),
                 default state (dict_lookup "state" d),
                 default (VStr EmptyString) (dict_lookup "status" d)), w'))
    /\ heap w' = (loads (JObj ms) (heap w)).2.
Proof.
  unfold call_api_try, requests.post, requests.send, bind, chat_request.
  destruct (net w _) as [r|e0]; simpl; [|discriminate].
  unfold requests.raise_for_status.
  destruct (requests.is_error_status (status_code r)) eqn:Est; [discriminate|].
  unfold ret, requests.json.
  destruct (body r) as [[| | | |js|ms]|] eqn:Eb; try discriminate.
  intros _. exists r, ms. cbn [heap wire].
  pose proof (loads_dict_of (JObj ms) (heap w)) as Hd.
  destruct (loads (JObj ms) (heap w)) as [v h'] eqn:El.
  unfold keys, get. cbn [heap wire fst snd] in *.
  repeat (rewrite Hd; cbn [heap wire]).
  eexists. split_and!; try first [reflexivity | assumption].
  cbn [heap]. change (h' = (loads (JObj ms) (heap w)).2). now rewrite El.
Qed.

(** A successful call, with what each member of the body decodes to. *)
Lemma call_api_success_decoded user_msg chat_history mode use_history state w :
  failure_of (chat_reply BACKEND_URL net user_msg chat_history mode
                use_history state w) = None ->
  exists r ms d w',
    chat_reply BACKEND_URL net user_msg chat_history mode use_history state w
    = Replied r
    /\ body r = Some (JObj ms)
    /\ call_api BACKEND_URL net user_msg chat_history mode use_history
         state w
       = (Done (user_msg,
                default chat_history (dict_lookup "chat_history" d),
                default state (dict_lookup "state" d),
                default (VStr EmptyString) (dict_lookup "status" d)), w')
    /\ heap w `prefix_of` heap w'
    /\ (forall k j, member k ms = Some j ->
          exists hj,
            heap w `prefix_of` hj
            /\ (loads j hj).2 `prefix_of` heap w'
            /\ dict_lookup k d = Some (loads j hj).1).
Proof.
  intros Hok.
  destruct (payload_spec user_msg chat_history mode use_history state w)
    as (p & h & s0 & w1 & Hp & _ & Hpre1 & _).
  unfold chat_reply in *. rewrite Hp in *.
  destruct (call_api_try_success_heap user_msg chat_history state p w1 Hok)
    as (r & ms & w' & Hrep & Hb & Htry & Hheap).
  exists r, ms, (load_members loads ms [] (heap w1)).1, w'.
  assert (Hlast : (load_members loads ms [] (heap w1)).2 `prefix_of` heap w').
  { rewrite Hheap. simpl.
    destruct (load_members loads ms [] (heap w1)) as [d h']. simpl.
    now apply prefix_app_r. }
  split_and!; try assumption.
  - unfold call_api, bind, try_except. rewrite Hp. cbv zeta in Htry.
    now rewrite Htry.
  - rewrite Hheap. etrans; [exact Hpre1|apply loads_prefix].
  - intros k j Hm.
    destruct (load_members_lookup_strong k ms [] (heap w1) j Hm)
      as (hj & H1 & H2 & H3).
    exists hj. split_and!; [etrans; eassumption|etrans; eassumption|exact H3].
Qed.

End MorePieces.

(** X7.  [call_api] does not absorb everything: with a transcript that
    [list(...)] rejects ([None], a bool, an int), every failure of the chat
    call ends in a [TypeError] raised by the handler itself, after the
    request has gone out.  No existing object is changed on the way. *)
Theorem call_api_not_iterable_raises
    BACKEND_URL net m T mode use_history s w e :
  not_iterable T ->
  failure_of (chat_reply BACKEND_URL net m T mode use_history s w) = Some e ->
  exists p w1 w',
    payload m T mode use_history s w = (Done p, w1)
    /\ call_api BACKEND_URL net m T mode use_history s w
       = (Raised TypeError, w')
    /\ wire w' = wire w ++ [chat_request BACKEND_URL p]
    /\ heap w `prefix_of` heap w'.
Proof.
  intros HT Hfail.
  destruct (payload_spec m T mode use_history s w)
    as (p & h & s0 & w1 & Hp & Hwire & Hpre1 & _).
  unfold chat_reply in Hfail. rewrite Hp in Hfail.
  destruct (call_api_try_failure BACKEND_URL net m T s p w1 e Hfail)
    as (w2 & Htry & Hpre2 & Hw2).
  destruct (call_api_except_spec m T s e w2) as (msg & Hdisp & _).
  exists p, w1, w2. split; [exact Hp|]. split_and!.
  - unfold call_api, bind, try_except. rewrite Hp, Htry, Hdisp.
    destruct T; try contradiction; reflexivity.
  - now rewrite Hw2, Hwire.
  - etrans; eassumption.
Qed.

Lemma call_api_not_iterable_raises_witness :
  exists p w1 w',
    payload (VStr "Hello") VNone (VStr "SFT") (VBool false) (VRef 1)
      sample_world = (Done p, w1)
    /\ call_api sample_url (net_replies 500 None) (VStr "Hello") VNone
         (VStr "SFT") (VBool false) (VRef 1) sample_world
       = (Raised TypeError, w')
    /\ wire w' = wire sample_world ++ [chat_request sample_url p]
    /\ heap sample_world `prefix_of` heap w'.
Proof.
  apply (call_api_not_iterable_raises sample_url (net_replies 500 None) _ _ _
           _ _ _ (HTTPError 500)); [exact I|reflexivity].
Defined.

(** X8.  What the payload carries for the transcript and the state is
    decided by their truth value: a truthy value goes out as it is (the same
    object), and a falsy one ([None], an empty list or dict, [0], the empty
    string, [False]) goes out as a newly allocated empty list, respectively
    empty dict. *)
Theorem payload_falsy_defaults m T mode use_history s w :
  valid (heap w) T ->
  valid (heap w) s ->
  exists p h s' w1,
    payload m T mode use_history s w = (Done p, w1)
    /\ dict_of (heap w1) p
       = Some [ ("user_msg", m); ("chat_history", h); ("mode", mode);
                ("use_history", use_history); ("state", s') ]
    /\ (truthy (heap w) T = true -> h = T)
    /\ (truthy (heap w) T = false ->
        exists l, h = VRef l /\ (length (heap w) <= l)%nat
                  /\ list_of (heap w1) h = Some [])
    /\ (truthy (heap w) s = true -> s' = s)
    /\ (truthy (heap w) s = false ->
        exists l, s' = VRef l /\ (length (heap w) <= l)%nat
                  /\ dict_of (heap w1) s' = Some []).
Proof.
  intros HT Hs. unfold payload, bind, py_or.
  destruct (truthy (heap w) T) eqn:Eh.
  - destruct (truthy (heap w) s) eqn:Es.
    + eexists _, T, s, _. split; [reflexivity|]. cbn [heap wire].
      split; [apply dict_of_alloc|]. split_and!; done.
    + eexists _, T, _, _. split; [reflexivity|]. cbn [alloc heap wire].
      split; [apply dict_of_alloc|]. split_and!; try done.
      intros _. eexists. split_and!; [reflexivity|lia|fresh_object].
  - cbn [alloc heap wire].
    rewrite (truthy_prefix (heap w) (heap w ++ [OList []]) s Hs)
      by now apply prefix_app_r.
    destruct (truthy (heap w) s) eqn:Es.
    + eexists _, _, s, _. split; [reflexivity|]. cbn [heap wire].
      split; [apply dict_of_alloc|]. split_and!; try done.
      intros _. eexists. split_and!; [reflexivity|lia|fresh_object].
    + eexists _, _, _, _. split; [reflexivity|]. cbn [alloc heap wire].
      split; [apply dict_of_alloc|]. split_and!; try done.
      * intros _. eexists. split_and!; [reflexivity|lia|fresh_object].
      * intros _. eexists. split_and!; [reflexivity| |fresh_object].
        rewrite length_app. simpl. lia.
Qed.

Lemma payload_falsy_defaults_witness :
  exists p h s' w1,
    payload (VStr "Hello") VNone (VStr "BASE") (VBool true) VNone sample_world
    = (Done p, w1)
    /\ dict_of (heap w1) p
       = Some [ ("user_msg", VStr "Hello"); ("chat_history", h);
                ("mode", VStr "BASE"); ("use_history", VBool true);
                ("state", s') ]
    /\ (truthy (heap sample_world) VNone = true -> h = VNone)
    /\ (truthy (heap sample_world) VNone = false ->
        exists l, h = VRef l /\ (length (heap sample_world) <= l)%nat
                  /\ list_of (heap w1) h = Some [])
    /\ (truthy (heap sample_world) VNone = true -> s' = VNone)
    /\ (truthy (heap sample_world) VNone = false ->
        exists l, s' = VRef l /\ (length (heap sample_world) <= l)%nat
                  /\ dict_of (heap w1) s' = Some []).
Proof.
  apply (payload_falsy_defaults (VStr "Hello") VNone (VStr "BASE")
           (VBool true) VNone sample_world); exact I.
Defined.

(** X9.  On a failed call a falsy state does not come back as it went in:
    for [None] (or any other falsy value) the third output is a newly
    allocated empty dict. *)
Theorem call_api_failure_falsy_state
    BACKEND_URL net m T mode use_history s w xs e :
  list_of (heap w) T = Some xs ->
  valid (heap w) s ->
  truthy (heap w) s = false ->
  failure_of (chat_reply BACKEND_URL net m T mode use_history s w) = Some e ->
  exists h l status w',
    call_api BACKEND_URL net m T mode use_history s w
    = (Done (m, h, VRef l, status), w')
    /\ (length (heap w) <= l)%nat
    /\ dict_of (heap w') (VRef l) = Some [].
Proof.
  intros Hxs Hv Hfalsy Hfail.
  destruct (payload_spec m T mode use_history s w)
    as (p & h0 & s0 & w1 & Hp & _ & Hpre1 & _).
  unfold chat_reply in Hfail. rewrite Hp in Hfail.
  destruct (call_api_try_failure BACKEND_URL net m T s p w1 e Hfail)
    as (w2 & Htry & Hpre2 & _).
  assert (Hpre : heap w `prefix_of` heap w2) by (etrans; eassumption).
  destruct (call_api_except_spec m T s e w2) as (msg & Hdisp & _).
  destruct (on_failure_state m T s msg w2 xs
              (list_of_prefix _ _ _ _ Hpre Hxs) (valid_prefix _ _ _ Hv Hpre))
    as (h & s' & status & w' & Hrun & _ & _ & Hnew).
  rewrite (truthy_prefix _ _ _ Hv Hpre) in Hnew.
  destruct (Hnew Hfalsy) as (l & -> & Hl & Hd).
  exists h, l, status, w'. split_and!; [|apply prefix_length in Hpre; lia|exact Hd].
  unfold call_api, bind, try_except. now rewrite Hp, Htry, Hdisp.
Qed.

Lemma call_api_failure_falsy_state_witness :
  exists h l status w',
    call_api sample_url (net_fails ReadTimeout) (VStr "Hello") (VRef 3)
      (VStr "SFT") (VBool false) VNone sample_world
    = (Done (VStr "Hello", h, VRef l, status), w')
    /\ (length (heap sample_world) <= l)%nat
    /\ dict_of (heap w') (VRef l) = Some [].
Proof.
  apply (call_api_failure_falsy_state sample_url (net_fails ReadTimeout) _ _
           _ _ _ _ [VTuple [VStr "Hello"; VStr "Hi, how can I help?"]]
           ReadTimeout); first [reflexivity | exact I].
Defined.

(** X10.  On success a member that is present wins over the fall-back even
    when it is [null]: a member of the body that is [null], a bool, an int or
    a string is returned as that very value.  So [{"state": null}] sets the
    state to [None], and a body with [status] gives that status text. *)
Theorem call_api_success_immediate
    BACKEND_URL net m T mode use_history s w r ms :
  chat_reply BACKEND_URL net m T mode use_history s w = Replied r ->
  requests.is_error_status (status_code r) = false ->
  body r = Some (JObj ms) ->
  exists h s' status w',
    call_api BACKEND_URL net m T mode use_history s w
    = (Done (m, h, s', status), w')
    /\ (forall j v, member "chat_history" ms = Some j ->
                   immediate j = Some v -> h = v)
    /\ (forall j v, member "state" ms = Some j ->
                   immediate j = Some v -> s' = v)
    /\ (forall j v, member "status" ms = Some j ->
                   immediate j = Some v -> status = v).
Proof.
  intros Hrep Hst Hb.
  destruct (call_api_success_decoded BACKEND_URL net m T mode use_history s w)
    as (r' & ms' & d & w' & Hrep' & Hb' & Hrun & _ & Hmem).
  { rewrite Hrep. simpl. now rewrite Hst, Hb. }
  rewrite Hrep in Hrep'. injection Hrep' as <-.
  rewrite Hb in Hb'. injection Hb' as <-.
  eexists _, _, _, w'. split; [exact Hrun|].
  split_and!; intros j v Hm Hi;
    destruct (Hmem _ _ Hm) as (hj & _ & _ & Hl); rewrite Hl;
    destruct j; simpl in Hi; try discriminate; now injection Hi as <-.
Qed.

Lemma call_api_success_immediate_witness :
  exists h s' status w',
    call_api sample_url
      (net_replies 200
         (Some (JObj [("state", JNull); ("status", JStr "mode=SFT")])))
      (VStr "Hello") (VRef 3) (VStr "SFT") (VBool false) (VRef 1) sample_world
    = (Done (VStr "Hello", h, s', status), w')
    /\ (forall j v,
          member "chat_history" [("state", JNull); ("status", JStr "mode=SFT")]
          = Some j -> immediate j = Some v -> h = v)
    /\ (forall j v,
          member "state" [("state", JNull); ("status", JStr "mode=SFT")]
          = Some j -> immediate j = Some v -> s' = v)
    /\ (forall j v,
          member "status" [("state", JNull); ("status", JStr "mode=SFT")]
          = Some j -> immediate j = Some v -> status = v).
Proof.
  apply (call_api_success_immediate sample_url
           (net_replies 200
              (Some (JObj [("state", JNull); ("status", JStr "mode=SFT")])))
           _ _ _ _ _ _
           {| status_code := 200;
              body := Some (JObj [("state", JNull);
                                  ("status", JStr "mode=SFT")]) |});
    reflexivity.
Defined.

(** X11.  On success a [chat_history] member that is a JSON array comes back
    as a list object with one item per element of the array, allocated during
    the call: it is not the caller's list, and the caller's list is still
    what it was. *)
Theorem call_api_success_transcript_array
    BACKEND_URL net m T mode use_history s w r ms js xs :
  list_of (heap w) T = Some xs ->
  chat_reply BACKEND_URL net m T mode use_history s w = Replied r ->
  requests.is_error_status (status_code r) = false ->
  body r = Some (JObj ms) ->
  member "chat_history" ms = Some (JArr js) ->
  exists l items s' status w',
    call_api BACKEND_URL net m T mode use_history s w
    = (Done (m, VRef l, s', status), w')
    /\ list_of (heap w') (VRef l) = Some items
    /\ length items = length js
    /\ VRef l <> T
    /\ list_of (heap w') T = Some xs.
Proof.
  intros Hxs Hrep Hst Hb Hm.
  destruct (call_api_success_decoded BACKEND_URL net m T mode use_history s w)
    as (r' & ms' & d & w' & Hrep' & Hb' & Hrun & Hpre & Hmem).
  { rewrite Hrep. simpl. now rewrite Hst, Hb. }
  rewrite Hrep in Hrep'. injection Hrep' as <-.
  rewrite Hb in Hb'. injection Hb' as <-.
  destruct (Hmem _ _ Hm) as (hj & Hj1 & Hj2 & Hl).
  rewrite Hl in Hrun. cbn [from_option id] in Hrun.
  pose proof (loads_list_of (JArr js) hj) as Hlist.
  pose proof (load_items_length loads js hj) as Hlen.
  pose proof (load_items_prefix js hj) as Hip.
  simpl in Hrun, Hlist, Hj2.
  destruct (load_items loads js hj) as [vs h2]. simpl in *.
  eexists (length h2), vs, _, _, w'. split; [exact Hrun|].
  split_and!.
  - eapply (list_of_prefix _ _ (VRef (length h2))); [exact Hj2|].
    simpl. exact Hlist.
  - exact Hlen.
  - intros <-. simpl in Hxs.
    destruct (heap w !! length h2) eqn:E; [|discriminate Hxs].
    apply lookup_lt_Some in E.
    apply prefix_length in Hj1, Hip. lia.
  - eapply list_of_prefix; [exact Hpre|exact Hxs].
Qed.

Lemma call_api_success_transcript_array_witness :
  exists l items s' status w',
    call_api sample_url
      (net_replies 200
         (Some (JObj [("chat_history",
                       JArr [JArr [JStr "Hello"; JStr "Hi!"]])])))
      (VStr "Hello") (VRef 0) (VStr "SFT") (VBool false) (VRef 1) sample_world
    = (Done (VStr "Hello", VRef l, s', status), w')
    /\ list_of (heap w') (VRef l) = Some items
    /\ length items = length [JArr [JStr "Hello"; JStr "Hi!"]]
    /\ VRef l <> VRef 0
    /\ list_of (heap w') (VRef 0) = Some [].
Proof.
  apply (call_api_success_transcript_array sample_url
           (net_replies 200
              (Some (JObj [("chat_history",
                            JArr [JArr [JStr "Hello"; JStr "Hi!"]])])))
           _ _ _ _ _ _
           {| status_code := 200;
              body := Some (JObj [("chat_history",
                                   JArr [JArr [JStr "Hello"; JStr "Hi!"]])]) |}
           [("chat_history", JArr [JArr [JStr "Hello"; JStr "Hi!"]])]);
    reflexivity.
Defined.

(** X12.  The outputs of a failed call are good inputs for the next one, and
    failures pile up in conversation order: when a call on the transcript and
    state returned by a failed call fails as well, it raises nothing and
    returns the original items followed by the two synthetic turns, first
    then second.  Each call works on its own copy: the list returned by the
    first call and the original list are still what they were. *)
Theorem call_api_two_failures
    BACKEND_URL net m1 m2 T mode1 mode2 use1 use2 s w xs e1 :
  list_of (heap w) T = Some xs ->
  failure_of (chat_reply BACKEND_URL net m1 T mode1 use1 s w) = Some e1 ->
  exists msg1 l1 s1 w1,
    call_api BACKEND_URL net m1 T mode1 use1 s w
    = (Done (m1, VRef l1, s1, VStr msg1), w1)
    /\ forall e2,
         failure_of (chat_reply BACKEND_URL net m2 (VRef l1) mode2 use2 s1 w1)
         = Some e2 ->
         exists msg2 l2 s2 w2,
           call_api BACKEND_URL net m2 (VRef l1) mode2 use2 s1 w1
           = (Done (m2, VRef l2, s2, VStr msg2), w2)
           /\ list_of (heap w2) (VRef l2)
              = Some (xs ++ [VTuple [m1; VStr msg1]; VTuple [m2; VStr msg2]])
           /\ list_of (heap w2) (VRef l1)
              = Some (xs ++ [VTuple [m1; VStr msg1]])
           /\ list_of (heap w2) T = Some xs.
Proof.
  intros Hxs Hf1.
  destruct (call_api_failure BACKEND_URL net m1 T mode1 use1 s w xs e1 Hxs Hf1)
    as (msg1 & l1 & s1 & w1 & Hrun1 & _ & _ & _ & _ & _ & Hpre1 & Hl1 & _).
  exists msg1, l1, s1, w1. split; [exact Hrun1|]. intros e2 Hf2.
  destruct (call_api_failure BACKEND_URL net m2 (VRef l1) mode2 use2 s1 w1 _
              e2 Hl1 Hf2)
    as (msg2 & l2 & s2 & w2 & Hrun2 & _ & _ & _ & _ & _ & Hpre2 & Hl2 & _).
  exists msg2, l2, s2, w2. split; [exact Hrun2|]. split_and!.
  - now rewrite <- app_assoc in Hl2.
  - eapply list_of_prefix; [exact Hpre2|exact Hl1].
  - eapply list_of_prefix; [etrans; [exact Hpre1|exact Hpre2]|exact Hxs].
Qed.

Lemma call_api_two_failures_witness :
  exists msg1 l1 s1 w1,
    call_api sample_url (net_fails ConnectionError) (VStr "Hello") (VRef 3)
      (VStr "SFT") (VBool false) (VRef 1) sample_world
    = (Done (VStr "Hello", VRef l1, s1, VStr msg1), w1)
    /\ forall e2,
         failure_of (chat_reply sample_url (net_fails ConnectionError)
                       (VStr "Again") (VRef l1) (VStr "BASE") (VBool true)
                       s1 w1)
         = Some e2 ->
         exists msg2 l2 s2 w2,
           call_api sample_url (net_fails ConnectionError) (VStr "Again")
             (VRef l1) (VStr "BASE") (VBool true) s1 w1
           = (Done (VStr "Again", VRef l2, s2, VStr msg2), w2)
           /\ list_of (heap w2) (VRef l2)
              = Some ([VTuple [VStr "Hello"; VStr "Hi, how can I help?"]]
                      ++ [VTuple [VStr "Hello"; VStr msg1];
                          VTuple [VStr "Again"; VStr msg2]])
           /\ list_of (heap w2) (VRef l1)
              = Some ([VTuple [VStr "Hello"; VStr "Hi, how can I help?"]]
                      ++ [VTuple [VStr "Hello"; VStr msg1]])
           /\ list_of (heap w2) (VRef 3)
              = Some [VTuple [VStr "Hello"; VStr "Hi, how can I help?"]].
Proof.
  apply (call_api_two_failures sample_url (net_fails ConnectionError) _ _ _ _
           _ _ _ _ _ _ ConnectionError); reflexivity.
Defined.

(** X13.  A response that is no error for [raise_for_status] but whose body
    is not a JSON object (not JSON at all, or an array, a string, a number,
    [null]) is answered like an unknown failure: one turn with
    [Unknown client error.] is appended and that text is the status. *)
Theorem call_api_bad_body_unknown
    BACKEND_URL net m T mode use_history s w xs r :
  list_of (heap w) T = Some xs ->
  chat_reply BACKEND_URL net m T mode use_history s w = Replied r ->
  requests.is_error_status (status_code r) = false ->
  (forall ms, body r <> Some (JObj ms)) ->
  exists l s' w',
    call_api BACKEND_URL net m T mode use_history s w
    = (Done (m, VRef l, s', VStr "Unknown client error."), w')
    /\ list_of (heap w') (VRef l)
       = Some (xs ++ [VTuple [m; VStr "Unknown client error."]]).
Proof.
  intros Hxs Hrep Hst Hbody.
  assert (He : exists e,
             failure_of (chat_reply BACKEND_URL net m T mode use_history s w)
             = Some e /\ classify e = except_Exception).
  { rewrite Hrep. simpl. rewrite Hst.
    destruct (body r) as [[| | | | |ms]|]; eauto.
    now destruct (Hbody ms). }
  destruct He as (e & Hf & Hc).
  destruct (call_api_failure BACKEND_URL net m T mode use_history s w xs e
              Hxs Hf)
    as (msg & l & s' & w' & Hrun & _ & _ & _ & Hu & _ & _ & Hlist & _).
  rewrite (Hu Hc) in *. now exists l, s', w'.
Qed.

Lemma call_api_bad_body_unknown_witness :
  exists l s' w',
    call_api sample_url (net_replies 200 (Some (JArr []))) (VStr "Hello")
      (VRef 0) (VStr "SFT") (VBool false) (VRef 1) sample_world
    = (Done (VStr "Hello", VRef l, s', VStr "Unknown client error."), w')
    /\ list_of (heap w') (VRef l)
       = Some ([] ++ [VTuple [VStr "Hello"; VStr "Unknown client error."]]).
Proof.
  apply (call_api_bad_body_unknown sample_url
           (net_replies 200 (Some (JArr []))) _ _ _ _ _ _ []
           {| status_code := 200; body := Some (JArr []) |});
    try reflexivity; discriminate.
Defined.

(** X14.  The [except] clauses are tried in the order they are written: an
    exception that is both a [ConnectionError] and a [Timeout], as the
    connect timeout of [requests] is, gets the not-reachable message of the
    first clause and not the took-too-long message. *)
Theorem call_api_connection_clause_first
    BACKEND_URL net m T mode use_history s w xs e :
  list_of (heap w) T = Some xs ->
  chat_reply BACKEND_URL net m T mode use_history s w = Failed e ->
  isinstance e except_ConnectionError = true ->
  isinstance e except_Timeout = true ->
  exists l s' w',
    call_api BACKEND_URL net m T mode use_history s w
    = (Done (m, VRef l, s',
             VStr "Backend not reachable (connection refused). Please retry when the backend server is running..."),
       w').
Proof.
  intros Hxs Hrep Hc _.
  destruct (call_api_failure BACKEND_URL net m T mode use_history s w xs e Hxs)
    as (msg & l & s' & w' & Hrun & Hmsg & _).
  { now rewrite Hrep. }
  rewrite Hmsg in Hrun by (unfold classify; now rewrite Hc).
  now exists l, s', w'.
Qed.

Lemma call_api_connection_clause_first_witness :
  exists l s' w',
    call_api sample_url (net_fails ConnectTimeout) (VStr "Hello") (VRef 0)
      (VStr "SFT") (VBool false) (VRef 1) sample_world
    = (Done (VStr "Hello", VRef l, s',
             VStr "Backend not reachable (connection refused). Please retry when the backend server is running..."),
       w').
Proof.
  apply (call_api_connection_clause_first sample_url
           (net_fails ConnectTimeout) _ _ _ _ _ _ [] ConnectTimeout);
    reflexivity.
Defined.
